(** * A model of [server.js]: session guard, device pairing and the
      resource handlers of the CMS server.

    The Express application of [server.js] is embedded shallowly.  JavaScript
    values are a small inductive type, JavaScript objects (request bodies,
    table rows, insert and update payloads, render locals) are finite maps
    from property names to values, and every handler is a function in a state
    monad over the world the server can change: the hosted record store and
    the console.  The hosted services (Supabase auth and the PostgREST record
    store) are not part of the repository; the answers of the auth service
    are fields of an environment record, and the record store is an in-memory
    table model whose failures the environment injects. *)

From stdpp Require Import gmap strings list fin_maps pretty.
From Stdlib Require Import ZArith Ascii.
From Stdlib.Strings Require Import Byte.

Open Scope string_scope.
Open Scope list_scope.

(** ** JavaScript values *)

(** JSON-shaped values as the handlers see them.  A number is kept as
    the text JavaScript prints for it ([String(n)]: ["7"], ["0.5"],
    ["1e+21"]), which is all this program can observe of a double: it tests
    a number for truthiness, hands it on, or writes it into a filter. *)
#[warnings="-register-all"]
Inductive value : Type :=
  | VUndefined
  | VNull
  | VBool (b : bool)
  | VNum (text : string)
  | VStr (s : string)
  | VArr (l : list value)
  | VObj (o : gmap string value).

(** A JavaScript object with string keys. *)
Abbreviation object := (gmap string value).

(** [!x]: the falsy values are [undefined], [null], [false], [0] (which
    prints as ["0"], as [-0] does), [NaN] and ['']; arrays and objects are
    truthy. *)
Definition truthy (v : value) : bool :=
  match v with
  | VUndefined | VNull => false
  | VBool b => b
  | VNum text => negb (String.eqb text "0") && negb (String.eqb text "NaN")
  | VStr s => negb (String.eqb s "")
  | VArr _ | VObj _ => true
  end.

(** [a || b] *)
Definition js_or (a b : value) : value := if truthy a then a else b.

Infix "||'" := js_or (at level 50, left associativity).

(** [o.k] on an object that exists: a missing property reads [undefined]. *)
Definition prop (o : object) (k : string) : value := default VUndefined (o !! k).

(** [v?.k]: [undefined] when [v] is [null] or [undefined]; the property when
    [v] is an object; primitives and arrays have none of the property names
    this program reads. *)
Definition opt_prop (v : value) (k : string) : value :=
  match v with
  | VObj o => prop o k
  | _ => VUndefined
  end.

(** [a[0]] on an array. *)
Definition first (l : list value) : value := default VUndefined (head l).

(** [`${v}`]: the text a template literal gives a value, which is how
    postgrest-js writes the operand of a filter into the query; [None] where
    it throws a [TypeError].  An object prints through its [toString]: a
    parsed body has the inherited one unless it has a property of that
    name, and then the property, being plain data, cannot be called and
    neither [valueOf] gives a primitive.  An array joins the texts of its
    elements and throws where one of them does. *)
Fixpoint to_text (v : value) : option string :=
  match v with
  | VUndefined => Some "undefined"
  | VNull => Some "null"
  | VBool true => Some "true"
  | VBool false => Some "false"
  | VNum text => Some text
  | VStr s => Some s
  | VArr l =>
      (* Array.prototype.join: null and undefined elements give no text *)
      let elem_text x :=
        match x with
        | VUndefined | VNull => Some ""
        | _ => to_text x
        end in
      (fix join (l : list value) : option string :=
         match l with
         | [] => Some ""
         | [x] => elem_text x
         | x :: l' =>
             match elem_text x, join l' with
             | Some a, Some b => Some (a +:+ "," +:+ b)
             | _, _ => None
             end
         end) l
  | VObj o =>
      match o !! "toString" with
      | Some _ => None
      | None => Some "[object Object]"
      end
  end.

(** ** [crypto] and [Buffer] *)

(** [buf.toString('hex')]: two lower-case hexadecimal digits per byte. *)
Definition hex_digit (n : N) : ascii :=
  default "0"%char (String.get (N.to_nat n) "0123456789abcdef").

Definition hex_of_byte (b : byte) : string :=
  let n := Byte.to_N b in
  String (hex_digit (n / 16)) (String (hex_digit (n mod 16)) "").

Fixpoint toString_hex (buf : list byte) : string :=
  match buf with
  | [] => ""
  | b :: buf' => hex_of_byte b +:+ toString_hex buf'
  end.

(** [s.toUpperCase()] on the ASCII range, which is all [toString('hex')]
    produces: the letters a-z move to A-Z, every other character stays. *)
Definition upper_ascii (c : ascii) : ascii :=
  let n := N_of_ascii c in
  if ((97 <=? n) && (n <=? 122))%N then ascii_of_N (n - 32) else c.

Fixpoint toUpperCase (s : string) : string :=
  match s with
  | EmptyString => EmptyString
  | String c s' => String (upper_ascii c) (toUpperCase s')
  end.



(** ** The hosted services *)

(** The error object both services answer with; the handlers read only
    [error.message]. *)
Record ServiceError := { message : string }.

(** The auth user: [user.id], [user.email], [user.user_metadata]. *)
Record User := {
  id : string;
  email : string;
  user_metadata : value;
}.

(** [{ data: { user }, error }] of [supabase.auth.getUser]. *)
Record UserResponse := {
  user_data : option User;
  user_error : option ServiceError;
}.

Record Session := { access_token : string }.

(** [{ data: { session }, error }] of [supabase.auth.signInWithPassword]. *)
Record SignInResponse := {
  session : option Session;
  signin_error : option ServiceError;
}.

(** A request to the record store, as the method chain builds it:
    [from(t).select('*').eq(c, v)] with or without [.single()],
    [from(t).insert([payload]).select()] and
    [from(t).update(patch).eq(c, v).select()]. *)
Inductive query : Type :=
  | Select (table : string) (col : string) (v : value) (single : bool)
  | Insert (table : string) (payload : object)
  | Update (table : string) (patch : object) (col : string) (v : value).

(** [{ data, error }] of a record store call. *)
Record StoreResponse := {
  data : value;
  error : option ServiceError;
}.

(** The two settings of [process.env] the pages hand to the browser. *)
Record Config := {
  SUPABASE_URL : string;
  SUPABASE_ANON_KEY : string;
}.

(** What the process cannot decide: its settings, the random source of [crypto], the
    answers of the auth service, and which record store calls fail for a
    reason of the store's own (network, constraint, permission). *)
Record Env := {
  process_env : Config;
  entropy : nat → byte;
  getUser : string → UserResponse;
  signUp : value → value → object → option ServiceError;
  signInWithPassword : value → value → SignInResponse;
  updateUser : object → option ServiceError;
  store_fault : query → option ServiceError;
}.

(** [crypto.randomBytes(n)]: the next [n] bytes of the random source. *)
Definition randomBytes (env : Env) (n : nat) : list byte :=
  entropy env <$> seq 0 n.

(** ** The record store *)

(** Tables of rows, in insertion order, and the counter the store draws
    row identifiers from. *)
Record Store := {
  tables : gmap string (list object);
  next_id : nat;
}.

Definition rows (st : Store) (t : string) : list object :=
  default [] (tables st !! t).

Definition set_rows (st : Store) (t : string) (l : list object) : Store :=
  {| tables := <[t := l]> (tables st); next_id := next_id st |}.

(** [JSON.stringify] leaves out the properties whose value is [undefined],
    so they never reach the store. *)
Definition is_undefined (v : value) : bool :=
  match v with VUndefined => true | _ => false end.

Definition sent (o : object) : object :=
  omap (λ v, if is_undefined v then None else Some v) o.

(** [.eq(col, v)]: the operand travels as text and a row matches when its
    column holds that text; an SQL NULL equals nothing. *)
Definition eq_filter (col : string) (v : value) (row : object) : bool :=
  match row !! col, to_text v with
  | Some VNull, _ | Some VUndefined, _ | None, _ | _, None => false
  | Some c, Some operand => bool_decide (to_text c = Some operand)
  end.

(** Modelled from the spec: the table definitions are not in the repository.
    The [devices] table assigns [device_id] itself and defaults [status] to
    [pending] ("device identifier (store-assigned)", "status = pending
    (default at the store level)"); nothing is known of the other tables'
    defaults, so they get none. *)
Definition column_defaults (t : string) (fresh : nat) : object :=
  if String.eqb t "devices"
  then {[ "device_id" := VStr (pretty fresh); "status" := VStr "pending" ]}
  else ∅.

(** The error of [.single()] when the filter does not select one row. *)
Definition not_single : ServiceError :=
  {| message := "JSON object requested, multiple (or no) rows returned" |}.

(** The rows a filter selects, and the rows of a table after an update of
    the selected ones: the patch's columns are overwritten, the others stay. *)
Definition select_rows (col : string) (v : value) (l : list object) : list object :=
  filter (λ r, eq_filter col v r = true) l.

Definition update_row (patch : object) (col : string) (v : value)
    (r : object) : object :=
  if eq_filter col v r then sent patch ∪ r else r.

(** A call the store itself does not fail.  An update or a select whose
    filter matches nothing is no error: it answers the empty array. *)
Definition run_query (st : Store) (q : query) : StoreResponse * Store :=
  match q with
  | Select t col v single =>
      let found := select_rows col v (rows st t) in
      if single then
        match found with
        | [r] => ({| data := VObj r; error := None |}, st)
        | _ => ({| data := VNull; error := Some not_single |}, st)
        end
      else ({| data := VArr (VObj <$> found); error := None |}, st)
  | Insert t payload =>
      let row := sent payload ∪ column_defaults t (next_id st) in
      ({| data := VArr [VObj row]; error := None |},
       {| tables := <[t := (rows st t ++ [row])%list]> (tables st);
          next_id := S (next_id st) |})
  | Update t patch col v =>
      let returning := (sent patch ∪.) <$> select_rows col v (rows st t) in
      ({| data := VArr (VObj <$> returning); error := None |},
       set_rows st t (update_row patch col v <$> rows st t))
  end.

(** ** Handlers as programs over the world *)

(** What a request can change: the record store and the console. *)
Record World := {
  store : Store;
  console : list string;
}.

(** An [async] function either returns or throws; a handler that throws
    outside a [try] has sent no response, and what becomes of the request
    then is Express's business. *)
Inductive result (A : Type) : Type :=
  | Returned (a : A)
  | Threw (e : string).
Arguments Returned {A} a.
Arguments Threw {A} e.

Definition IO (A : Type) : Type := World → result A * World.

#[global] Instance IO_ret : MRet IO := λ A a w, (Returned a, w).

#[global] Instance IO_bind : MBind IO := λ A B f m w,
  match m w with
  | (Returned a, w') => f a w'
  | (Threw e, w') => (Threw e, w')
  end.

Definition throw {A} (e : string) : IO A := λ w, (Threw e, w).

(** [try { m } catch (err) { h }] *)
Definition try_catch {A} (m : IO A) (h : string → IO A) : IO A := λ w,
  match m w with
  | (Threw e, w') => h e w'
  | r => r
  end.

(** [console.log] and [console.error]: the line's label is kept. *)
Definition console_log (label : string) : IO unit := λ w,
  (Returned (), {| store := store w; console := console w ++ [label] |}).

Definition console_error (label : string) : IO unit := console_log label.

(** Whether the method chain of a query can be built: [.eq(col, v)] writes
    [`eq.${v}`] into the query and throws where the template literal
    does. *)
Definition chain_builds (q : query) : bool :=
  match q with
  | Select _ _ v _ | Update _ _ _ v =>
      match to_text v with Some _ => true | None => false end
  | Insert _ _ => true
  end.

(** [await supabaseAdmin.from(...)...]: building the chain throws before
    anything is sent when the operand of [.eq] has no text; else the store
    answers the query, or fails for a reason of its own and leaves its
    tables as they were. *)
Definition await_store (env : Env) (q : query) : IO StoreResponse := λ w,
  if chain_builds q then
    match store_fault env q with
    | Some e => (Returned {| data := VNull; error := Some e |}, w)
    | None =>
        let '(r, st') := run_query (store w) q in
        (Returned r, {| store := st'; console := console w |})
    end
  else (Threw "TypeError: Cannot convert object to primitive value", w).

(** [v[0]]: a [TypeError] on [null] and [undefined]. *)
Definition at0 (v : value) : IO value :=
  match v with
  | VNull | VUndefined => throw "TypeError: Cannot read properties of null (reading '0')"
  | VArr l => mret (first l)
  | VObj o => mret (prop o "0")
  | VStr (String c _) => mret (VStr (String c ""))
  | _ => mret VUndefined
  end.

(** ** Requests and responses *)

(** [req]: the parsed cookies, the route parameters, the parsed body (the
    body parsers give an object) and the [user] the guard attaches. *)
Record Request := {
  cookies : gmap string string;
  params : gmap string string;
  body : object;
  user : option User;
}.

Definition with_user (req : Request) (u : User) : Request :=
  {| cookies := cookies req; params := params req; body := body req;
     user := Some u |}.

(** [req.user], read where the source reads a property of it. *)
Definition req_user (req : Request) : IO User :=
  match user req with
  | Some u => mret u
  | None => throw "TypeError: Cannot read properties of undefined (reading 'id')"
  end.

Definition param (req : Request) (k : string) : value :=
  from_option VStr VUndefined (params req !! k).

Record Cookie := {
  cookie_name : string;
  cookie_value : string;
  httpOnly : bool;
  secure : bool;
  maxAge : Z;
}.

Inductive Body : Type :=
  | Redirect (url : string)
  | Render (view : string) (locals : object)
  | Send (text : string)
  | Json (v : value).

Record Response := {
  status : Z;
  set_cookies : list Cookie;
  sent_body : Body;
}.

(** [res.redirect(url)] *)
Definition redirect (url : string) : Response :=
  {| status := 302; set_cookies := []; sent_body := Redirect url |}.

(** [res.render(view, locals)] *)
Definition render (view : string) (locals : object) : Response :=
  {| status := 200; set_cookies := []; sent_body := Render view locals |}.

(** [res.status(code).send(text)] *)
Definition send (code : Z) (text : string) : Response :=
  {| status := code; set_cookies := []; sent_body := Send text |}.

(** [res.status(code).json(v)] *)
Definition json (code : Z) (v : value) : Response :=
  {| status := code; set_cookies := []; sent_body := Json v |}.

(** [res.cookie(name, value, options)] before the response is sent. *)
Definition cookie (c : Cookie) (r : Response) : Response :=
  {| status := status r; set_cookies := c :: set_cookies r;
     sent_body := sent_body r |}.

(** [{ error: e.message }] *)
Definition error_body (e : ServiceError) : value :=
  VObj {[ "error" := VStr (message e) ]}.

Definition user_value (u : User) : value :=
  VObj {[ "id" := VStr (id u); "email" := VStr (email u);
          "user_metadata" := user_metadata u ]}.

(** ** The session guard *)

(** [requireAuth(req, res, next)] *)
Definition requireAuth (env : Env) (req : Request)
    (next : Request → IO Response) : IO Response :=
  match cookies req !! "auth-token" with
  | None => mret (redirect "/login")
  | Some token =>
      if negb (truthy (VStr token)) then mret (redirect "/login")
      else
        let r := getUser env token in
        match user_error r, user_data r with
        | None, Some u => next (with_user req u)
        | _, _ => mret (redirect "/login")
        end
  end.

(** ** Page rendering routes *)

Definition root_page (env : Env) (req : Request) : IO Response :=
  mret (redirect "/dashboard").

Definition login_page (env : Env) (req : Request) : IO Response :=
  mret (render "login" ∅).

Definition signup_page (env : Env) (req : Request) : IO Response :=
  mret (render "signup" ∅).

Definition dashboard_page (env : Env) (req : Request) : IO Response :=
  u ← req_user req;
  console_log "Dashboard route hit for user:";;
  r ← await_store env (Select "devices" "owner_id" (VStr (id u)) false);
  console_log "Devices query result:";;
  match error r with
  | Some e =>
      console_error "Error fetching devices:";;
      mret (send 500 "Error fetching devices")
  | None =>
      console_log "Devices fetched successfully:";;
      mret (render "dashboard"
              {[ "user" := user_value u;
                 "devices" := data r ||' VArr [];
                 "supabaseUrl" := VStr (SUPABASE_URL (process_env env));
                 "supabaseAnonKey" := VStr (SUPABASE_ANON_KEY (process_env env)) ]})
  end.

Definition content_page (env : Env) (req : Request) : IO Response :=
  u ← req_user req;
  r ← await_store env (Select "content" "owner_id" (VStr (id u)) false);
  mret (render "content" {[ "content" := data r ||' VArr [] ]}).

Definition playlist_page (env : Env) (req : Request) : IO Response :=
  let deviceId := param req "deviceId" in
  rd ← await_store env (Select "devices" "device_id" deviceId true);
  u ← req_user req;
  rc ← await_store env (Select "content" "owner_id" (VStr (id u)) false);
  mret (render "playlist"
          {[ "device" := data rd ||' VObj ∅;
             "content" := data rc ||' VArr [] ]}).

Definition profile_page (env : Env) (req : Request) : IO Response :=
  mret (render "profile"
          {[ "user" := from_option user_value VUndefined (user req) ]}).

Definition test_supabase_page (env : Env) (req : Request) : IO Response :=
  mret (render "test-supabase"
          {[ "supabaseUrl" := VStr (SUPABASE_URL (process_env env));
             "supabaseAnonKey" := VStr (SUPABASE_ANON_KEY (process_env env)) ]}).

(** ** Sign-up and login *)

Definition signup (env : Env) (req : Request) : IO Response :=
  let email := prop (body req) "email" in
  let password := prop (body req) "password" in
  let full_name := prop (body req) "full_name" in
  let avatar_url := prop (body req) "avatar_url" in
  match signUp env email password
          {[ "full_name" := full_name ||' VStr "";
             "avatar_url" := avatar_url ||' VStr "" ]} with
  | Some e =>
      console_error "Supabase Signup Error:";;
      mret (json 400 (error_body e))
  | None =>
      mret (json 200 (VObj {[ "message" := VStr "Signup successful, please login." ]}))
  end.

Definition login (env : Env) (req : Request) : IO Response :=
  let email := prop (body req) "email" in
  let password := prop (body req) "password" in
  let r := signInWithPassword env email password in
  match signin_error r with
  | Some e => mret (json 400 (error_body e))
  | None =>
      match session r with
      | None => throw "TypeError: Cannot read properties of null (reading 'access_token')"
      | Some s =>
          mret (cookie {| cookie_name := "auth-token";
                          cookie_value := access_token s;
                          httpOnly := true; secure := false;
                          maxAge := 3600000 |}
                  (json 200 (VObj {[ "message" := VStr "Login successful" ]})))
      end
  end.

(** ** Device management *)

(** [crypto.randomBytes(4).toString('hex').toUpperCase()] *)
Definition generate_unique_code (env : Env) : string :=
  toUpperCase (toString_hex (randomBytes env 4)).

(** The row [POST /api/generate-code] hands to [insert]. *)
Definition generate_payload (env : Env) (u : User) (req : Request) : object :=
  {[ "owner_id" := VStr (id u);
     "unique_code" := VStr (generate_unique_code env);
     "device_name" := prop (body req) "device_name" ||' VStr "New Device" ]}.

Definition generate_code (env : Env) (req : Request) : IO Response :=
  console_log "Generate code endpoint hit";;
  u ← req_user req;
  console_log "User ID:";;
  console_log "Device name:";;
  console_log "Generated code:";;
  try_catch
    (r ← await_store env (Insert "devices" (generate_payload env u req));
     console_log "Insert result:";;
     match error r with
     | Some e =>
         console_error "Database error:";;
         mret (json 500 (error_body e))
     | None =>
         row ← at0 (data r);
         console_log "Device created successfully:";;
         mret (json 201 row)
     end)
    (λ _,
       console_error "Unexpected error:";;
       mret (json 500 (VObj {[ "error" := VStr "Unexpected error occurred" ]}))).

(** The patch [POST /api/confirm-device] hands to [update]. *)
Definition confirm_patch : object := {[ "status" := VStr "active" ]}.

(** The store call of [POST /api/confirm-device]. *)
Definition confirm_query (req : Request) : query :=
  let device_id := prop (body req) "device_id" in
  Update "devices" confirm_patch "device_id" device_id.

Definition confirm_device (env : Env) (req : Request) : IO Response :=
  r ← await_store env (confirm_query req);
  match error r with
  | Some e => mret (json 500 (error_body e))
  | None =>
      row ← at0 (data r);
      mret (json 200 row)
  end.

(** ** Content, profile and playlist *)

Definition create_content (env : Env) (req : Request) : IO Response :=
  let file_url := prop (body req) "file_url" in
  let content_type := prop (body req) "content_type" in
  u ← req_user req;
  r ← await_store env
        (Insert "content"
           {[ "owner_id" := VStr (id u);
              "file_url" := file_url;
              "content_type" := content_type ]});
  match error r with
  | Some e => mret (json 500 (error_body e))
  | None =>
      row ← at0 (data r);
      mret (json 201 row)
  end.

Definition get_profile (env : Env) (req : Request) : IO Response :=
  u ← req_user req;
  r ← await_store env (Select "users" "id" (VStr (id u)) true);
  match error r with
  | Some e => mret (json 500 (error_body e))
  | None => mret (json 200 (data r))
  end.

(** The object both writes of [PUT /api/user/profile] carry: a field of the
    body when truthy, else the caller's auth metadata, else [''].  *)
Definition profile_patch (u : User) (req : Request) : object :=
  let full_name := prop (body req) "full_name" in
  let avatar_url := prop (body req) "avatar_url" in
  {[ "full_name" :=
       full_name ||' opt_prop (user_metadata u) "full_name" ||' VStr "";
     "avatar_url" :=
       avatar_url ||' opt_prop (user_metadata u) "avatar_url" ||' VStr "" ]}.

Definition update_profile (env : Env) (req : Request) : IO Response :=
  u ← req_user req;
  r ← await_store env (Update "users" (profile_patch u req) "id" (VStr (id u)));
  match error r with
  | Some e => mret (json 500 (error_body e))
  | None =>
      match updateUser env (profile_patch u req) with
      | Some _ => console_error "Auth update error:"
      | None => mret ()
      end;;
      row ← at0 (data r);
      mret (json 200 row)
  end.

Definition create_playlist (env : Env) (req : Request) : IO Response :=
  r ← await_store env
        (Insert "playlists"
           {[ "device_id" := prop (body req) "device_id";
              "content_id" := prop (body req) "content_id";
              "start_time" := prop (body req) "start_time";
              "end_time" := prop (body req) "end_time";
              "order" := prop (body req) "order" ]});
  match error r with
  | Some e => mret (json 500 (error_body e))
  | None =>
      row ← at0 (data r);
      mret (json 201 row)
  end.

(** ** The application *)

(** The routes [server.js] registers; [:deviceId] arrives in [req.params]. *)
Inductive Route : Type :=
  | GET_root
  | GET_login
  | GET_signup
  | GET_dashboard
  | GET_content
  | GET_playlist
  | GET_profile
  | GET_test_supabase
  | POST_signup
  | POST_login
  | POST_generate_code
  | POST_confirm_device
  | POST_content
  | GET_user_profile
  | PUT_user_profile
  | POST_playlist.

#[global] Instance Route_eq_dec : EqDecision Route.
Proof. solve_decision. Defined.

(** Whether the route is registered with [requireAuth] in front. *)
Definition session_protected (r : Route) : bool :=
  match r with
  | GET_dashboard | GET_content | GET_playlist | GET_profile
  | POST_generate_code | POST_content | GET_user_profile | PUT_user_profile
  | POST_playlist => true
  | GET_root | GET_login | GET_signup | GET_test_supabase
  | POST_signup | POST_login | POST_confirm_device => false
  end.

(** The last function of the route's registration. *)
Definition handler (r : Route) : Env → Request → IO Response :=
  match r with
  | GET_root => root_page
  | GET_login => login_page
  | GET_signup => signup_page
  | GET_dashboard => dashboard_page
  | GET_content => content_page
  | GET_playlist => playlist_page
  | GET_profile => profile_page
  | GET_test_supabase => test_supabase_page
  | POST_signup => signup
  | POST_login => login
  | POST_generate_code => generate_code
  | POST_confirm_device => confirm_device
  | POST_content => create_content
  | GET_user_profile => get_profile
  | PUT_user_profile => update_profile
  | POST_playlist => create_playlist
  end.

(** Express runs the registered functions in order. *)
Definition app (env : Env) (r : Route) (req : Request) : IO Response :=
  if session_protected r
  then requireAuth env req (handler r env)
  else handler r env req.

(** ** Runs of the server *)

(** One request as the server receives it, with what the outside world
    answers while it is served. *)
Record Call := {
  call_env : Env;
  call_route : Route;
  call_request : Request;
}.

Definition respond (w : World) (c : Call) : result Response * World :=
  app (call_env c) (call_route c) (call_request c) w.

Definition step (w : World) (c : Call) : World := (respond w c).2.

(** The world after the requests of [cs], served one after the other. *)
Definition run (w : World) (cs : list Call) : World := foldl step w cs.

(** [row.status] *)
Definition row_status (row : object) : value := prop row "status".

(** ** Vocabulary of the properties *)

(** The table a query writes to, if any. *)
Definition written_table (q : query) : option string :=
  match q with
  | Select _ _ _ _ => None
  | Insert t _ | Update t _ _ _ => Some t
  end.

(** The program [m] leaves the rows of table [t] as they are, however it
    ends. *)
Definition keeps_rows {A : Type} (t : string) (m : IO A) : Prop :=
  ∀ w, rows (store (m w).2) t = rows (store w) t.

(** ** Sample data *)

Module Sample.

Definition alice : User :=
  {| id := "alice"; email := "alice@example.com";
     user_metadata := VObj {[ "full_name" := VStr "Alice A";
                              "avatar_url" := VStr "a.png" ]} |}.

Definition bob : User :=
  {| id := "bob"; email := "bob@example.com"; user_metadata := VObj ∅ |}.

Definition rejected : UserResponse :=
  {| user_data := None;
     user_error := Some {| message := "invalid JWT" |} |}.

(** An auth service that knows the tokens of alice and of bob, whose
    metadata update fails, and a record store that never fails. *)
Definition env : Env :=
  {| process_env := {| SUPABASE_URL := "https://project.supabase.co";
                       SUPABASE_ANON_KEY := "anon-key" |};
     entropy := λ n, match n with
                     | 0 => x0a | 1 => xff | 2 => x3c | _ => x00
                     end;
     getUser := λ t,
       if String.eqb t "token-alice"
       then {| user_data := Some alice; user_error := None |}
       else if String.eqb t "token-bob"
       then {| user_data := Some bob; user_error := None |}
       else rejected;
     signUp := λ _ _ _, None;
     signInWithPassword := λ e p,
       if bool_decide (to_text p = Some "secret123")
       then {| session := Some {| access_token := "token-alice" |};
               signin_error := None |}
       else {| session := None;
               signin_error := Some {| message := "Invalid login credentials" |} |};
     updateUser := λ _, Some {| message := "Auth session missing!" |};
     store_fault := λ _, None |}.

(** The same outside world with a record store that is down. *)
Definition env_store_down : Env :=
  {| process_env := process_env env; entropy := entropy env;
     getUser := getUser env; signUp := signUp env;
     signInWithPassword := signInWithPassword env;
     updateUser := updateUser env;
     store_fault := λ _, Some {| message := "connection refused" |} |}.

Definition request (token : option string) (b : object) : Request :=
  {| cookies := from_option (λ t, {[ "auth-token" := t ]}) ∅ token;
     params := ∅; body := b; user := None |}.

Definition playlist_request (token deviceId : string) : Request :=
  {| cookies := {[ "auth-token" := token ]};
     params := {[ "deviceId" := deviceId ]}; body := ∅; user := None |}.

Definition bobs_device : object :=
  {[ "device_id" := VStr "7"; "owner_id" := VStr "bob";
     "unique_code" := VStr "DEADBEEF"; "device_name" := VStr "Lobby TV";
     "status" := VStr "pending" ]}.

Definition alices_user_row : object :=
  {[ "id" := VStr "alice"; "full_name" := VStr "Alice A";
     "avatar_url" := VStr "a.png" ]}.

Definition empty_world : World :=
  {| store := {| tables := ∅; next_id := 1 |}; console := [] |}.

Definition world : World :=
  {| store := {| tables := {[ "devices" := [bobs_device];
                              "users" := [alices_user_row] ]};
                 next_id := 8 |};
     console := [] |}.

Definition call (e : Env) (r : Route) (req : Request) : Call :=
  {| call_env := e; call_route := r; call_request := req |}.

(** The device of bob after its confirmation. *)
Definition confirmed_world : World :=
  step world (call env POST_confirm_device
                (request None {[ "device_id" := VStr "7" ]})).

(** Requests that come after it: a new device for alice, a confirm of an
    unknown id, a profile update and a second confirm of bob's device. *)
Definition later_calls : list Call :=
  [ call env POST_generate_code
      (request (Some "token-alice") {[ "device_name" := VStr "Kiosk" ]});
    call env POST_confirm_device (request None {[ "device_id" := VStr "999" ]});
    call env PUT_user_profile
      (request (Some "token-alice") {[ "full_name" := VStr "Alice B" ]});
    call env POST_confirm_device (request None {[ "device_id" := VStr "7" ]}) ].

End Sample.

(** ** Vocabulary of the whole-server properties *)

(** The program [m] moves the store along the relation [R], looked at
    through [f]: what [f] shows of the store before is [R]-related to what
    it shows after, however [m] ends. *)
Definition moves {A X : Type} (R : relation X) (f : Store → X) (m : IO A) : Prop :=
  ∀ w, R (f (store w)) (f (store (m w).2)).

(** The status codes [server.js] sends: [200] and [201] on success, [302]
    from [res.redirect], [400] and [500] on failure. *)
Definition sent_statuses : list Z := [200; 201; 302; 400; 500]%Z.

Module Library.

(** A store with content of two owners, their users rows and a device. *)
Definition alices_clip : object :=
  {[ "owner_id" := VStr "alice"; "file_url" := VStr "https://cdn/a.mp4";
     "content_type" := VStr "video" ]}.

Definition bobs_clip : object :=
  {[ "owner_id" := VStr "bob"; "file_url" := VStr "https://cdn/b.png";
     "content_type" := VStr "image" ]}.

Definition bobs_user_row : object :=
  {[ "id" := VStr "bob"; "full_name" := VStr "Bob"; "avatar_url" := VStr "" ]}.

Definition alices_device : object :=
  {[ "device_id" := VStr "3"; "owner_id" := VStr "alice";
     "unique_code" := VStr "0BADF00D"; "device_name" := VStr "Hall";
     "status" := VStr "active" ]}.

Definition world : World :=
  {| store :=
       {| tables :=
            {[ "devices" := [Sample.bobs_device; alices_device];
               "content" := [alices_clip; bobs_clip];
               "users" := [bobs_user_row; Sample.alices_user_row] ]};
          next_id := 8 |};
     console := [] |}.

Definition as_alice (b : object) : Request :=
  Sample.request (Some "token-alice") b.

Definition as_bob (b : object) : Request :=
  Sample.request (Some "token-bob") b.

(** An outside world in which the auth metadata update succeeds. *)
Definition env_syncing : Env :=
  {| process_env := process_env Sample.env; entropy := entropy Sample.env;
     getUser := getUser Sample.env; signUp := signUp Sample.env;
     signInWithPassword := signInWithPassword Sample.env;
     updateUser := λ _, None;
     store_fault := store_fault Sample.env |}.

(** Bob as the auth service knows him after he renamed himself "Bob B" in
    that world, and the world that resolves his token so. *)
Definition bob_renamed : User :=
  {| id := "bob"; email := "bob@example.com";
     user_metadata := VObj {[ "full_name" := VStr "Bob B";
                              "avatar_url" := VStr "" ]} |}.

Definition env_synced : Env :=
  {| process_env := process_env Sample.env; entropy := entropy Sample.env;
     getUser := λ t,
       if String.eqb t "token-bob"
       then {| user_data := Some bob_renamed; user_error := None |}
       else getUser Sample.env t;
     signUp := signUp Sample.env;
     signInWithPassword := signInWithPassword Sample.env;
     updateUser := λ _, None;
     store_fault := store_fault Sample.env |}.

End Library.

(** The shapes of the queries the handlers of [server.js] build: reads of
    any kind, inserts into [devices], [content] and [playlists], the status
    update of [devices] by [device_id] and an update of [users] by [id]. *)
Definition sendable (q : query) : Prop :=
  match q with
  | Select _ _ _ _ => True
  | Insert t _ => t ∈ ["devices"; "content"; "playlists"]
  | Update t patch col _ =>
      (t = "devices" ∧ patch = confirm_patch ∧ col = "device_id")
      ∨ (t = "users" ∧ col = "id")
  end.

(** The guard lets the request through as [u]: its [auth-token] cookie is
    not empty and the auth service resolves it to [u] without an error. *)
Definition signed_in (env : Env) (req : Request) (u : User) : Prop :=
  ∃ token, cookies req !! "auth-token" = Some token
           ∧ token ≠ ""
           ∧ user_error (getUser env token) = None
           ∧ user_data (getUser env token) = Some u.

(** The row's column [col] holds the text [s]. *)
Definition column_is (col s : string) (row : object) : Prop :=
  ∃ c, row !! col = Some c ∧ c ≠ VNull ∧ c ≠ VUndefined ∧ to_text c = Some s.

(** * Properties *)

(** ** The monad and the store *)

Ltac io := unfold mbind, mret, IO_bind, IO_ret, throw in *; cbn in *.

Lemma truthy_VStr (s : string) : truthy (VStr s) = true ↔ s ≠ "".
Proof.
  cbn. destruct (String.eqb_spec s ""); cbn; split; congruence.
Qed.

(** A route parameter is a string or missing: it always has a text. *)
Lemma param_text (req : Request) (k : string) :
  ∃ text, to_text (param req k) = Some text.
Proof. unfold param. destruct (params req !! k); by eexists. Qed.

(** ** The session guard *)

Lemma requireAuth_denied (env : Env) (req : Request)
    (next : Request → IO Response) (w : World) :
  cookies req !! "auth-token" = None
  ∨ cookies req !! "auth-token" = Some ""
  ∨ (∃ t, cookies req !! "auth-token" = Some t
          ∧ (user_error (getUser env t) ≠ None
             ∨ user_data (getUser env t) = None)) →
  requireAuth env req next w = (Returned (redirect "/login"), w).
Proof.
  unfold requireAuth.
  intros [-> | [-> | (t & -> & Hfail)]]; [done | done |].
  destruct (truthy (VStr t)); [cbn | done].
  destruct (user_error (getUser env t)), (user_data (getUser env t));
    try done; by destruct Hfail.
Qed.

Lemma requireAuth_allowed (env : Env) (req : Request)
    (next : Request → IO Response) (w : World) (t : string) (u : User) :
  cookies req !! "auth-token" = Some t →
  t ≠ "" →
  user_error (getUser env t) = None →
  user_data (getUser env t) = Some u →
  requireAuth env req next w = next (with_user req u) w.
Proof.
  intros Hc Ht He Hu. unfold requireAuth. rewrite Hc.
  apply truthy_VStr in Ht. rewrite Ht, He, Hu. done.
Qed.

(** C1: on every session-protected route, a request whose [auth-token]
    cookie is absent (or empty, which JavaScript also takes as absent), or
    whose token the auth service answers with an error or with no user, gets
    the same response, status [302] with the location [/login] and no
    cookie, whatever the downstream handler is and with the world
    untouched, so the handler did not run; a request whose
    token the auth service resolves to a user is handed to the route's
    handler with that user as [req.user] and all else as it came. *)
Theorem session_guard (env : Env) (r : Route) (req : Request) (w : World) :
  session_protected r = true →
  ((cookies req !! "auth-token" = None
    ∨ cookies req !! "auth-token" = Some ""
    ∨ (∃ t, cookies req !! "auth-token" = Some t
            ∧ (user_error (getUser env t) ≠ None
               ∨ user_data (getUser env t) = None))) →
   (∀ next,
      requireAuth env req next w
      = (Returned {| status := 302; set_cookies := [];
                     sent_body := Redirect "/login" |}, w))
   ∧ app env r req w
     = (Returned {| status := 302; set_cookies := [];
                    sent_body := Redirect "/login" |}, w))
  ∧ (∀ t u,
       cookies req !! "auth-token" = Some t →
       t ≠ "" →
       user_error (getUser env t) = None →
       user_data (getUser env t) = Some u →
       app env r req w = handler r env (with_user req u) w
       ∧ user (with_user req u) = Some u
       ∧ cookies (with_user req u) = cookies req
       ∧ params (with_user req u) = params req
       ∧ body (with_user req u) = body req).
Proof.
  intros Hr. unfold app. rewrite Hr. split.
  - intros Hdenied. split; [intros next |]; by apply requireAuth_denied.
  - intros t u Hc Ht He Hu. split; [| done].
    by apply requireAuth_allowed with (t := t).
Qed.

Lemma session_guard_witness :
  app Sample.env GET_dashboard (Sample.request None ∅) Sample.world
    = (Returned {| status := 302; set_cookies := [];
                   sent_body := Redirect "/login" |}, Sample.world)
  ∧ app Sample.env GET_profile (Sample.request (Some "token-alice") ∅)
      Sample.world
    = handler GET_profile Sample.env
        (with_user (Sample.request (Some "token-alice") ∅) Sample.alice)
        Sample.world.
Proof.
  split.
  - apply (session_guard Sample.env GET_dashboard (Sample.request None ∅)
             Sample.world); [reflexivity | left; reflexivity].
  - apply (session_guard Sample.env GET_profile
             (Sample.request (Some "token-alice") ∅) Sample.world
             eq_refl) with (t := "token-alice");
      [reflexivity | discriminate | reflexivity | reflexivity].
Defined.

(** ** The record store *)

Lemma rows_set_rows (st : Store) (t t' : string) (l : list object) :
  rows (set_rows st t l) t' = if decide (t = t') then l else rows st t'.
Proof.
  unfold rows, set_rows; cbn. rewrite lookup_insert.
  by destruct (decide (t = t')).
Qed.

Lemma select_rows_none (col : string) (v : value) (l : list object) :
  (∀ row, row ∈ l → eq_filter col v row = false) →
  select_rows col v l = [].
Proof.
  intros Hno. unfold select_rows. induction l as [| r l IH]; [done |].
  rewrite filter_cons. rewrite (Hno r) by apply list_elem_of_here.
  rewrite decide_False by done.
  apply IH. intros row Hrow. apply Hno. by apply list_elem_of_further.
Qed.

Lemma update_rows_none (patch : object) (col : string) (v : value)
    (l : list object) :
  (∀ row, row ∈ l → eq_filter col v row = false) →
  update_row patch col v <$> l = l.
Proof.
  intros Hno. induction l as [| r l IH]; [done |].
  rewrite fmap_cons. unfold update_row at 1.
  rewrite (Hno r) by apply list_elem_of_here.
  f_equal. apply IH. intros row Hrow. apply Hno. by apply list_elem_of_further.
Qed.

(** A patch that does not write the filter's column leaves the filter's
    verdict on a row as it was. *)
Lemma eq_filter_patched (patch : object) (col : string) (v : value)
    (r : object) :
  patch !! col = None →
  eq_filter col v (patch ∪ r) = eq_filter col v r.
Proof.
  intros Hcol. unfold eq_filter.
  by rewrite lookup_union_r.
Qed.

Lemma patch_twice (patch r : object) : patch ∪ (patch ∪ r) = patch ∪ r.
Proof. by rewrite (assoc_L (∪)), (idemp_L (∪)). Qed.

Lemma update_row_twice (patch : object) (col : string) (v : value)
    (r : object) :
  sent patch !! col = None →
  update_row patch col v (update_row patch col v r) = update_row patch col v r.
Proof.
  intros Hcol. unfold update_row.
  destruct (eq_filter col v r) eqn:Hr.
  - rewrite eq_filter_patched, Hr by done. apply patch_twice.
  - by rewrite Hr.
Qed.

Lemma eq_filter_updated (patch : object) (col : string) (v : value)
    (r : object) :
  sent patch !! col = None →
  eq_filter col v (update_row patch col v r) = eq_filter col v r.
Proof.
  intros Hcol. unfold update_row.
  destruct (eq_filter col v r) eqn:Hr; [| done].
  by rewrite eq_filter_patched.
Qed.

Lemma select_rows_updated (patch : object) (col : string) (v : value)
    (l : list object) :
  sent patch !! col = None →
  select_rows col v (update_row patch col v <$> l)
  = (sent patch ∪.) <$> select_rows col v l.
Proof.
  intros Hcol. unfold select_rows. induction l as [| r l IH]; [done |].
  rewrite fmap_cons, !filter_cons, eq_filter_updated by done.
  destruct (decide (eq_filter col v r = true)) as [Hr | Hr]; [| done].
  rewrite fmap_cons, IH. f_equal. unfold update_row. by rewrite Hr.
Qed.

Lemma sent_confirm_patch : sent confirm_patch = confirm_patch.
Proof. reflexivity. Qed.

Lemma confirm_patch_device_id : sent confirm_patch !! "device_id" = None.
Proof. reflexivity. Qed.

(** ** Confirming a device *)

Lemma eq_filter_operand (col : string) (v : value) (row : object) :
  eq_filter col v row = true → is_Some (to_text v).
Proof.
  unfold eq_filter. destruct (to_text v); [by eexists |].
  by destruct (row !! col) as [[] |].
Qed.

Lemma selected_operand (col : string) (v : value) (l : list object)
    (row : object) (found : list object) :
  select_rows col v l = row :: found → is_Some (to_text v).
Proof.
  intros Hsel. apply (eq_filter_operand col v row).
  assert (row ∈ select_rows col v l) as Hrow
    by (rewrite Hsel; apply list_elem_of_here).
  by apply list_elem_of_filter in Hrow as [? _].
Qed.

Lemma confirm_device_throws (env : Env) (req : Request) (w : World) :
  to_text (prop (body req) "device_id") = None →
  confirm_device env req w
  = (Threw "TypeError: Cannot convert object to primitive value", w).
Proof.
  intros Htext. unfold confirm_device, await_store. io.
  by rewrite Htext.
Qed.

Lemma confirm_device_fault (env : Env) (req : Request) (w : World)
    (e : ServiceError) :
  is_Some (to_text (prop (body req) "device_id")) →
  store_fault env (confirm_query req) = Some e →
  confirm_device env req w = (Returned (json 500 (error_body e)), w).
Proof.
  intros [text Htext] Hfault. unfold confirm_device, await_store. io.
  by rewrite Htext, Hfault.
Qed.

Lemma confirm_device_ok (env : Env) (req : Request) (w : World) :
  is_Some (to_text (prop (body req) "device_id")) →
  store_fault env (confirm_query req) = None →
  confirm_device env req w
  = (Returned
       (json 200
          (first (VObj <$> ((confirm_patch ∪.) <$>
             select_rows "device_id" (prop (body req) "device_id")
               (rows (store w) "devices"))))),
     {| store :=
          set_rows (store w) "devices"
            (update_row confirm_patch "device_id"
               (prop (body req) "device_id") <$> rows (store w) "devices");
        console := console w |}).
Proof.
  intros [text Htext] Hfault. unfold confirm_device, await_store. io.
  by rewrite Htext, Hfault.
Qed.

(** C2, as the code has it: a confirm request whose [device_id] matches no
    device row changes no row of any table and writes nothing to the
    console.  Its response is status [500] with the body
    [{ error: message }] exactly when the store call itself reports an
    error, and otherwise status [200] with no row in the body: the handler
    has no not-found outcome of its own.  When the [device_id] has no text
    (an object with a property named [toString]), building the filter
    throws before anything is sent to the store and the handler sends no
    response. *)
Theorem confirm_unknown_device (env : Env) (req : Request) (w : World) :
  (∀ row, row ∈ rows (store w) "devices" →
          eq_filter "device_id" (prop (body req) "device_id") row = false) →
  (∀ t, rows (store (app env POST_confirm_device req w).2) t = rows (store w) t)
  ∧ console (app env POST_confirm_device req w).2 = console w
  ∧ (app env POST_confirm_device req w).1
    = match to_text (prop (body req) "device_id") with
      | None => Threw "TypeError: Cannot convert object to primitive value"
      | Some _ =>
          match store_fault env (confirm_query req) with
          | Some e =>
              Returned
                {| status := 500; set_cookies := [];
                   sent_body := Json (VObj {[ "error" := VStr (message e) ]}) |}
          | None =>
              Returned
                {| status := 200; set_cookies := [];
                   sent_body := Json VUndefined |}
          end
      end.
Proof.
  intros Hno. unfold app; cbn [session_protected handler].
  destruct (to_text (prop (body req) "device_id")) as [text |] eqn:Htext.
  - assert (is_Some (to_text (prop (body req) "device_id"))) as Hsome
      by (by eexists).
    destruct (store_fault env (confirm_query req)) as [e |] eqn:Hfault.
    + by rewrite (confirm_device_fault _ _ _ e).
    + rewrite confirm_device_ok by done. cbn [fst snd store console].
      rewrite select_rows_none, update_rows_none by done.
      split; [| done].
      intros t. rewrite rows_set_rows.
      by destruct (decide ("devices" = t)) as [<- |].
  - by rewrite confirm_device_throws.
Qed.

Lemma confirm_unknown_device_witness :
  (app Sample.env POST_confirm_device
     (Sample.request None {[ "device_id" := VStr "999" ]}) Sample.world).1
  = Returned (json 200 VUndefined).
Proof.
  destruct (confirm_unknown_device Sample.env
              (Sample.request None {[ "device_id" := VStr "999" ]})
              Sample.world) as (_ & _ & Hresp).
  - intros row Hrow. apply list_elem_of_singleton in Hrow. by subst row.
  - exact Hresp.
Defined.

(** C2 as stated fails: the store holds one device, with id [7]; confirming
    the unknown id [999] is answered with status [200], not with an error. *)
Lemma confirm_unknown_device_succeeds :
  (∀ row, row ∈ rows (store Sample.world) "devices" →
          eq_filter "device_id" (VStr "999") row = false)
  ∧ (app Sample.env POST_confirm_device
       (Sample.request None {[ "device_id" := VStr "999" ]}) Sample.world).1
    = Returned (json 200 VUndefined)
  ∧ ¬ (∃ resp,
         (app Sample.env POST_confirm_device
            (Sample.request None {[ "device_id" := VStr "999" ]})
            Sample.world).1 = Returned resp
         ∧ status resp ≠ 200%Z).
Proof.
  split; [| split].
  - intros row Hrow. apply list_elem_of_singleton in Hrow. by subst row.
  - vm_compute. reflexivity.
  - intros (resp & Hresp & Hstatus). apply Hstatus.
    vm_compute in Hresp. by injection Hresp as <-.
Qed.

(** What a confirm that the store accepts leaves in the devices: a row the
    [device_id] matches has [status] [active] and every other column as
    before; a row it does not match is as before. *)
Lemma confirmed_row (v : value) (r : object) :
  (update_row confirm_patch "device_id" v r) !! "status"
  = (if eq_filter "device_id" v r then Some (VStr "active") else r !! "status")
  ∧ ∀ k, k ≠ "status" →
         (update_row confirm_patch "device_id" v r) !! k = r !! k.
Proof.
  unfold update_row. rewrite sent_confirm_patch.
  destruct (eq_filter "device_id" v r); [| done]. split.
  - by apply lookup_union_Some_l.
  - intros k Hk. rewrite lookup_union_r; [done |].
    by apply lookup_singleton_ne.
Qed.

(** C10: confirming twice is confirming once.  When the store reports no
    error and the [device_id] matches a row, the first confirm answers
    status [200] with the first matching row, whose [status] is now
    [active] and whose other columns are as they were.  In the store every
    device row is in its place: a matching row has [status] [active] and
    all other columns unchanged, every other device row and every other
    table are unchanged.  The second confirm of the same [device_id] gives
    the same response and leaves the world exactly as the first left
    it. *)
Theorem confirm_idempotent (env1 env2 : Env) (req1 req2 : Request)
    (w : World) (row : object) (l : list object) :
  prop (body req2) "device_id" = prop (body req1) "device_id" →
  store_fault env1 (confirm_query req1) = None →
  store_fault env2 (confirm_query req2) = None →
  select_rows "device_id" (prop (body req1) "device_id")
    (rows (store w) "devices") = row :: l →
  let first_run := app env1 POST_confirm_device req1 w in
  let second_run := app env2 POST_confirm_device req2 first_run.2 in
  first_run.1
  = Returned
      {| status := 200; set_cookies := [];
         sent_body := Json (VObj (confirm_patch ∪ row)) |}
  ∧ (confirm_patch ∪ row) !! "status" = Some (VStr "active")
  ∧ (∀ k, k ≠ "status" → (confirm_patch ∪ row) !! k = row !! k)
  ∧ (∀ i r, rows (store w) "devices" !! i = Some r →
            ∃ r', rows (store first_run.2) "devices" !! i = Some r'
                  ∧ r' !! "status"
                    = (if eq_filter "device_id" (prop (body req1) "device_id") r
                       then Some (VStr "active") else r !! "status")
                  ∧ ∀ k, k ≠ "status" → r' !! k = r !! k)
  ∧ length (rows (store first_run.2) "devices")
    = length (rows (store w) "devices")
  ∧ (∀ t, t ≠ "devices" → rows (store first_run.2) t = rows (store w) t)
  ∧ rows (store first_run.2) "devices"
    = update_row confirm_patch "device_id" (prop (body req1) "device_id")
        <$> rows (store w) "devices"
  ∧ second_run.1 = first_run.1
  ∧ second_run.2 = first_run.2.
Proof.
  intros Hid Hf1 Hf2 Hsel first_run second_run.
  pose proof (selected_operand _ _ _ _ _ Hsel) as Htext1.
  assert (is_Some (to_text (prop (body req2) "device_id"))) as Htext2
    by (by rewrite Hid).
  subst second_run first_run. unfold app; cbn [session_protected handler].
  rewrite (confirm_device_ok env1) by done. cbn [fst snd].
  rewrite (confirm_device_ok env2) by done. cbn [fst snd store console].
  rewrite Hid, !rows_set_rows, !decide_True by done.
  rewrite select_rows_updated by apply confirm_patch_device_id.
  rewrite sent_confirm_patch, Hsel, !fmap_cons, patch_twice.
  split; [reflexivity |].
  split; [by apply lookup_union_Some_l |].
  split.
  { intros k Hk. rewrite lookup_union_r; [done |].
    by apply lookup_singleton_ne. }
  split.
  { intros i r Hr. eexists. split.
    - by rewrite list_lookup_fmap, Hr.
    - apply confirmed_row. }
  split; [by rewrite length_fmap |].
  split.
  { intros t Ht. by rewrite rows_set_rows, decide_False. }
  split; [done |].
  split; [reflexivity |]. f_equal.
  unfold set_rows; cbn. f_equal. rewrite insert_insert_eq. f_equal.
  rewrite <- list_fmap_compose. apply list_fmap_ext.
  intros i r _. cbn. by apply update_row_twice.
Qed.

Lemma confirm_idempotent_witness :
  (app Sample.env POST_confirm_device
     (Sample.request None {[ "device_id" := VStr "7" ]})
     (app Sample.env POST_confirm_device
        (Sample.request None {[ "device_id" := VStr "7" ]}) Sample.world).2).1
  = (app Sample.env POST_confirm_device
       (Sample.request None {[ "device_id" := VStr "7" ]}) Sample.world).1
  ∧ ∃ stored,
      rows (store (app Sample.env POST_confirm_device
                     (Sample.request None {[ "device_id" := VStr "7" ]})
                     Sample.world).2) "devices" !! 0 = Some stored
      ∧ stored !! "status" = Some (VStr "active").
Proof.
  assert (select_rows "device_id"
            (prop (body (Sample.request None {[ "device_id" := VStr "7" ]}))
               "device_id")
            (rows (store Sample.world) "devices")
          = [Sample.bobs_device]) as Hsel by reflexivity.
  destruct (confirm_idempotent Sample.env Sample.env
              (Sample.request None {[ "device_id" := VStr "7" ]})
              (Sample.request None {[ "device_id" := VStr "7" ]})
              Sample.world Sample.bobs_device [] eq_refl eq_refl eq_refl Hsel)
    as (_ & _ & _ & Hstored & _ & _ & _ & Hsame & _).
  split; [exact Hsame |].
  destruct (Hstored 0 Sample.bobs_device eq_refl)
    as (stored & Hrow & Hstatus & _).
  exists stored. split; [exact Hrow | exact Hstatus].
Defined.

(** ** The pairing code *)














(** ** Generating a device *)

Lemma js_or_defined (a b : value) :
  is_undefined b = false → is_undefined (a ||' b) = false.
Proof. unfold js_or. by destruct a as [| | [] | | | |]; cbn; try case_match. Qed.

Lemma sent_generate_payload (env : Env) (u : User) (req : Request) :
  sent (generate_payload env u req) = generate_payload env u req.
Proof.
  apply map_eq. intros k. unfold sent. rewrite lookup_omap.
  unfold generate_payload.
  destruct (decide (k = "owner_id")) as [-> | ?]; [done |].
  destruct (decide (k = "unique_code")) as [-> | ?]; [done |].
  destruct (decide (k = "device_name")) as [-> | ?].
  - rewrite !lookup_insert_ne, lookup_singleton_eq by done. cbn.
    by rewrite js_or_defined.
  - by rewrite !lookup_insert_ne, lookup_singleton_ne by done.
Qed.

Lemma generate_code_fault (env : Env) (req : Request) (w : World) (u : User)
    (e : ServiceError) :
  user req = Some u →
  store_fault env (Insert "devices" (generate_payload env u req)) = Some e →
  generate_code env req w
  = (Returned (json 500 (error_body e)),
     {| store := store w;
        console := console w ++
          ["Generate code endpoint hit"; "User ID:"; "Device name:";
           "Generated code:"; "Insert result:"; "Database error:"] |}).
Proof.
  intros Hu Hfault.
  unfold generate_code, try_catch, req_user, await_store, console_error,
    console_log.
  io. rewrite Hu. io. rewrite Hfault. cbn.
  by rewrite <- !(assoc_L (++)).
Qed.

Lemma generate_code_ok (env : Env) (req : Request) (w : World) (u : User) :
  user req = Some u →
  store_fault env (Insert "devices" (generate_payload env u req)) = None →
  let row := generate_payload env u req
             ∪ column_defaults "devices" (next_id (store w)) in
  generate_code env req w
  = (Returned (json 201 (VObj row)),
     {| store :=
          {| tables := <["devices" := rows (store w) "devices" ++ [row]]>
                         (tables (store w));
             next_id := S (next_id (store w)) |};
        console := console w ++
          ["Generate code endpoint hit"; "User ID:"; "Device name:";
           "Generated code:"; "Insert result:";
           "Device created successfully:"] |}).
Proof.
  intros Hu Hfault row.
  unfold generate_code, try_catch, req_user, await_store, console_error,
    console_log.
  io. rewrite Hu. io. rewrite Hfault. cbn.
  rewrite sent_generate_payload. by rewrite <- !(assoc_L (++)).
Qed.





(** ** What a request leaves alone *)

Section Frame.
Context {A B : Type} (t : string).

Lemma keeps_rows_ret (a : A) : keeps_rows t (mret a).
Proof. done. Qed.

Lemma keeps_rows_throw (e : string) : keeps_rows t (throw e : IO A).
Proof. done. Qed.

Lemma keeps_rows_bind (m : IO A) (f : A → IO B) :
  keeps_rows t m → (∀ a, keeps_rows t (f a)) → keeps_rows t (m ≫= f).
Proof.
  intros Hm Hf w. unfold mbind, IO_bind.
  specialize (Hm w). destruct (m w) as [[a | e] w1]; cbn in *.
  - by rewrite Hf.
  - done.
Qed.

Lemma keeps_rows_try_catch (m : IO A) (h : string → IO A) :
  keeps_rows t m → (∀ e, keeps_rows t (h e)) → keeps_rows t (try_catch m h).
Proof.
  intros Hm Hh w. unfold try_catch.
  specialize (Hm w). destruct (m w) as [[a | e] w1]; cbn in *.
  - done.
  - by rewrite Hh.
Qed.
End Frame.

Lemma keeps_rows_console_log (t label : string) :
  keeps_rows t (console_log label).
Proof. done. Qed.

Lemma keeps_rows_at0 (t : string) (v : value) : keeps_rows t (at0 v).
Proof. by destruct v as [| | | | [] | |]. Qed.

Lemma keeps_rows_req_user (t : string) (req : Request) :
  keeps_rows t (req_user req).
Proof. unfold req_user. by destruct (user req). Qed.

Lemma keeps_rows_await_store (t : string) (env : Env) (q : query) :
  written_table q ≠ Some t → keeps_rows t (await_store env q).
Proof.
  intros Hq w. unfold await_store.
  destruct (chain_builds q); [| done].
  destruct (store_fault env q); [done |].
  destruct q as [t' col v single | t' payload | t' patch col v]; cbn.
  - destruct single; [| done].
    by destruct (select_rows col v (rows (store w) t')) as [| ? []].
  - unfold rows at 1; cbn. rewrite lookup_insert_ne; [done |].
    intros ->. by apply Hq.
  - rewrite rows_set_rows, decide_False; [done |].
    intros ->. by apply Hq.
Qed.

Lemma keeps_rows_requireAuth (t : string) (env : Env) (req : Request)
    (next : Request → IO Response) :
  (∀ req', keeps_rows t (next req')) → keeps_rows t (requireAuth env req next).
Proof.
  intros Hnext w. unfold requireAuth. repeat case_match; try done. apply Hnext.
Qed.

Create HintDb frame.

#[local] Hint Resolve keeps_rows_ret keeps_rows_throw keeps_rows_console_log
  keeps_rows_at0 keeps_rows_req_user : frame.

Ltac frame :=
  repeat first
    [ apply keeps_rows_bind; [| intros ?]
    | apply keeps_rows_try_catch; [| intros ?]
    | apply keeps_rows_await_store; discriminate
    | solve [auto with frame]
    | match goal with |- keeps_rows _ (match ?x with _ => _ end) => destruct x end ].

(** Only the two device operations write to the devices. *)
Lemma handler_keeps_devices (r : Route) (env : Env) (req : Request) :
  r ≠ POST_generate_code → r ≠ POST_confirm_device →
  keeps_rows "devices" (handler r env req).
Proof.
  intros Hgen Hconf.
  destruct r; try done; cbn [handler];
    unfold root_page, login_page, signup_page, dashboard_page, content_page,
      playlist_page, profile_page, test_supabase_page, signup, login,
      create_content, get_profile, update_profile, create_playlist,
      console_error;
    cbv zeta; frame.
Qed.

(** ** The status of a device *)

Lemma generate_code_devices (env : Env) (req : Request) (w : World) :
  rows (store (generate_code env req w).2) "devices" = rows (store w) "devices"
  ∨ ∃ row, row_status row = VStr "pending"
           ∧ rows (store (generate_code env req w).2) "devices"
             = rows (store w) "devices" ++ [row].
Proof.
  destruct (user req) as [u |] eqn:Hu.
  - destruct (store_fault env (Insert "devices" (generate_payload env u req)))
      as [e |] eqn:Hfault.
    + left. by rewrite (generate_code_fault _ _ _ u e).
    + right. rewrite (generate_code_ok _ _ _ u) by done.
      exists (generate_payload env u req
              ∪ column_defaults "devices" (next_id (store w))).
      split.
      * unfold row_status, prop. by rewrite lookup_union_r.
      * unfold rows at 1; cbn. by rewrite lookup_insert_eq.
  - left. unfold generate_code, req_user, console_log. io. by rewrite Hu.
Qed.

Lemma confirm_device_devices (env : Env) (req : Request) (w : World) :
  rows (store (confirm_device env req w).2) "devices" = rows (store w) "devices"
  ∨ rows (store (confirm_device env req w).2) "devices"
    = update_row confirm_patch "device_id" (prop (body req) "device_id")
        <$> rows (store w) "devices".
Proof.
  destruct (to_text (prop (body req) "device_id")) as [text |] eqn:Htext;
    [| left; by rewrite confirm_device_throws].
  assert (is_Some (to_text (prop (body req) "device_id"))) as Hsome
    by (by eexists).
  destruct (store_fault env (confirm_query req)) as [e |] eqn:Hfault.
  - left. by rewrite (confirm_device_fault _ _ _ e).
  - right. rewrite confirm_device_ok by done. cbn.
    by rewrite rows_set_rows, decide_True.
Qed.

(** One request changes the devices in one of three ways: not at all; by a
    confirm, which overwrites the [status] of the matching rows with
    [active]; or by a generate, which appends one [pending] row. *)
Lemma devices_after_step (w : World) (c : Call) :
  rows (store (step w c)) "devices" = rows (store w) "devices"
  ∨ (call_route c = POST_confirm_device
     ∧ rows (store (step w c)) "devices"
       = update_row confirm_patch "device_id"
           (prop (body (call_request c)) "device_id")
           <$> rows (store w) "devices")
  ∨ (call_route c = POST_generate_code
     ∧ ∃ row, row_status row = VStr "pending"
              ∧ rows (store (step w c)) "devices"
                = rows (store w) "devices" ++ [row]).
Proof.
  destruct c as [env r req]. unfold step, respond, app. cbn.
  destruct (decide (r = POST_confirm_device)) as [-> | Hconf].
  { cbn. destruct (confirm_device_devices env req w) as [H | H]; auto. }
  destruct (decide (r = POST_generate_code)) as [-> | Hgen].
  { cbn. unfold requireAuth. repeat case_match; auto.
    destruct (generate_code_devices env (with_user req u) w) as [Hg | Hg];
      auto. }
  left. destruct (session_protected r).
  - apply keeps_rows_requireAuth. intros req'. by apply handler_keeps_devices.
  - by apply handler_keeps_devices.
Qed.

Lemma confirm_patch_status (row : object) :
  row_status (confirm_patch ∪ row) = VStr "active".
Proof.
  unfold row_status, prop.
  by rewrite (lookup_union_Some_l _ _ _ (VStr "active")).
Qed.

Lemma device_row_after_step (w : World) (c : Call) (i : nat) (row : object) :
  rows (store w) "devices" !! i = Some row →
  rows (store (step w c)) "devices" !! i = Some row
  ∨ (call_route c = POST_confirm_device
     ∧ rows (store (step w c)) "devices" !! i = Some (confirm_patch ∪ row)).
Proof.
  intros Hrow.
  destruct (devices_after_step w c) as [-> | [[Hr ->] | (_ & new & _ & ->)]].
  - by left.
  - rewrite list_lookup_fmap, Hrow. cbn. unfold update_row.
    destruct (eq_filter _ _ row); [right | left]; done.
  - left. by apply lookup_app_l_Some.
Qed.

Lemma device_row_after_run (w : World) (cs : list Call) (i : nat)
    (row : object) :
  rows (store w) "devices" !! i = Some row →
  rows (store (run w cs)) "devices" !! i = Some row
  ∨ rows (store (run w cs)) "devices" !! i = Some (confirm_patch ∪ row).
Proof.
  revert w row. induction cs as [| c cs IH]; intros w row Hrow; [by left |].
  cbn [run foldl]. fold (run (step w c) cs).
  destruct (device_row_after_step w c i row Hrow) as [H1 | [_ H1]].
  - by apply IH.
  - destruct (IH _ _ H1) as [H2 | H2]; right; [done |].
    by rewrite patch_twice in H2.
Qed.

(** C5: the status of a device never goes back.  A request changes the
    devices only by a confirm, which writes [active] into the [status] of
    the rows it matches and nothing else, or by a generate, which appends one
    row whose status is [pending]; so after any sequence of requests a
    device row is still in its place, equal to what it was except that its
    status may have become [active], and a row that was [active] is
    [active]. *)
Theorem status_never_reverts (w : World) (cs : list Call) (c : Call)
    (i : nat) (row : object) :
  rows (store w) "devices" !! i = Some row →
  (∃ row', rows (store (run w cs)) "devices" !! i = Some row'
           ∧ (row' = row ∨ row' = confirm_patch ∪ row)
           ∧ (∀ k, k ≠ "status" → row' !! k = row !! k)
           ∧ (row_status row' = row_status row
              ∨ row_status row' = VStr "active")
           ∧ (row_status row = VStr "active" →
              row_status row' = VStr "active"))
  ∧ (rows (store (step w c)) "devices" = rows (store w) "devices"
     ∨ (call_route c = POST_confirm_device
        ∧ rows (store (step w c)) "devices"
          = update_row confirm_patch "device_id"
              (prop (body (call_request c)) "device_id")
              <$> rows (store w) "devices")
     ∨ (call_route c = POST_generate_code
        ∧ ∃ new, row_status new = VStr "pending"
                 ∧ rows (store (step w c)) "devices"
                   = rows (store w) "devices" ++ [new])).
Proof.
  intros Hrow. split; [| apply devices_after_step].
  destruct (device_row_after_run w cs i row Hrow) as [H | H].
  - exists row. split; [done |]. split; [by left |].
    split; [done |]. split; [by left | done].
  - exists (confirm_patch ∪ row). split; [done |]. split; [by right |].
    split.
    { intros k Hk. rewrite lookup_union_r; [done |].
      by apply lookup_singleton_ne. }
    split; [right |]; by rewrite confirm_patch_status.
Qed.

Lemma status_never_reverts_witness :
  ∃ row', rows (store (run Sample.confirmed_world Sample.later_calls))
            "devices" !! 0 = Some row'
          ∧ row_status row' = VStr "active".
Proof.
  assert (rows (store Sample.confirmed_world) "devices" !! 0
          = Some (confirm_patch ∪ Sample.bobs_device)) as Hrow
    by (vm_compute; reflexivity).
  destruct (status_never_reverts Sample.confirmed_world Sample.later_calls
              (Sample.call Sample.env GET_root (Sample.request None ∅))
              0 (confirm_patch ∪ Sample.bobs_device) Hrow)
    as [(row' & Hrow' & _ & _ & _ & Hactive) _].
  exists row'. split; [exact Hrow' | apply Hactive; reflexivity].
Defined.

(** ** Login *)

(** C9: when the auth service accepts the credentials, the login response
    is [200] and sets one cookie, named [auth-token], HTTP-only, not secure,
    with a max age of 3600000 ms, whose value is the access token of the
    session as the auth service gave it; when the auth service rejects
    them, the response is [400] with the body [{ error: message }] and sets
    no cookie.  Neither case touches the store. *)
Theorem login_sets_session_cookie (env : Env) (req : Request) (w : World) :
  let answer := signInWithPassword env (prop (body req) "email")
                  (prop (body req) "password") in
  (∀ s, signin_error answer = None → session answer = Some s →
        app env POST_login req w
        = (Returned
             {| status := 200;
                set_cookies :=
                  [ {| cookie_name := "auth-token";
                       cookie_value := access_token s;
                       httpOnly := true; secure := false;
                       maxAge := 3600000 |} ];
                sent_body := Json (VObj {[ "message" := VStr "Login successful" ]}) |},
           w))
  ∧ (∀ e, signin_error answer = Some e →
          app env POST_login req w
          = (Returned
               {| status := 400;
                  set_cookies := [];
                  sent_body := Json (VObj {[ "error" := VStr (message e) ]}) |},
             w)).
Proof.
  intros answer. subst answer. unfold app; cbn [session_protected handler].
  unfold login. split.
  - intros s He Hs. by rewrite He, Hs.
  - intros e He. by rewrite He.
Qed.

Lemma login_sets_session_cookie_witness :
  (app Sample.env POST_login
     (Sample.request None {[ "email" := VStr "alice@example.com";
                             "password" := VStr "secret123" ]})
     Sample.world).1
  = Returned
      (cookie {| cookie_name := "auth-token"; cookie_value := "token-alice";
                 httpOnly := true; secure := false; maxAge := 3600000 |}
         (json 200 (VObj {[ "message" := VStr "Login successful" ]})))
  ∧ (app Sample.env POST_login
       (Sample.request None {[ "email" := VStr "alice@example.com";
                               "password" := VStr "guess" ]})
       Sample.world).1
    = Returned (json 400 (VObj {[ "error" := VStr "Invalid login credentials" ]})).
Proof.
  split.
  - rewrite (proj1 (login_sets_session_cookie Sample.env _ Sample.world)
               {| access_token := "token-alice" |});
      reflexivity.
  - rewrite (proj2 (login_sets_session_cookie Sample.env _ Sample.world)
               {| message := "Invalid login credentials" |});
      reflexivity.
Defined.

(** ** Whose rows a page shows *)

(** The dashboard asks for the devices of the caller and shows what the
    store selects for that owner. *)
Lemma dashboard_page_devices (env : Env) (req : Request) (w : World)
    (u : User) :
  user req = Some u →
  store_fault env (Select "devices" "owner_id" (VStr (id u)) false) = None →
  ∃ locals,
    (dashboard_page env req w).1 = Returned (render "dashboard" locals)
    ∧ locals !! "devices"
      = Some (VArr (VObj <$> select_rows "owner_id" (VStr (id u))
                               (rows (store w) "devices"))).
Proof.
  intros Hu Hfault.
  unfold dashboard_page, req_user, await_store, console_log. io.
  rewrite Hu. io. rewrite Hfault. cbn. eexists. split; reflexivity.
Qed.

(** The playlist page asks for the device by its id alone: whatever single
    row has that id is shown, whoever owns it. *)
Lemma playlist_page_device (env : Env) (req : Request) (w : World)
    (u : User) (d : object) :
  user req = Some u →
  store_fault env (Select "devices" "device_id" (param req "deviceId") true)
    = None →
  store_fault env (Select "content" "owner_id" (VStr (id u)) false) = None →
  select_rows "device_id" (param req "deviceId") (rows (store w) "devices")
    = [d] →
  playlist_page env req w
  = (Returned
       (render "playlist"
          {[ "device" := VObj d;
             "content" := VArr (VObj <$> select_rows "owner_id" (VStr (id u))
                                           (rows (store w) "content")) ]}),
     w).
Proof.
  intros Hu Hfd Hfc Hd.
  destruct (param_text req "deviceId") as [text Htext].
  unfold playlist_page, req_user, await_store. io.
  rewrite Htext, Hfd. cbn. rewrite Hd, Hu. io. rewrite Hfc. cbn.
  by destruct w.
Qed.

(** C6 fails on the playlist page: alice, authenticated, asks for the
    playlist page of device [7]; the device belongs to bob and the page is
    rendered with bob's row. *)
Theorem playlist_page_shows_foreign_device :
  user_data (getUser Sample.env "token-alice") = Some Sample.alice
  ∧ Sample.bobs_device !! "owner_id" = Some (VStr "bob")
  ∧ id Sample.alice ≠ "bob"
  ∧ (app Sample.env GET_playlist
       (Sample.playlist_request "token-alice" "7") Sample.world).1
    = Returned
        (render "playlist"
           {[ "device" := VObj Sample.bobs_device; "content" := VArr [] ]}).
Proof.
  split; [reflexivity |]. split; [reflexivity |]. split; [discriminate |].
  vm_compute. reflexivity.
Qed.

(** ** Failures of the hosted services *)

(** The content page reads [error] and never looks at it. *)
Lemma content_page_ignores_error (env : Env) (req : Request) (w : World)
    (u : User) (e : ServiceError) :
  user req = Some u →
  store_fault env (Select "content" "owner_id" (VStr (id u)) false) = Some e →
  content_page env req w
  = (Returned (render "content" {[ "content" := VArr [] ]}), w).
Proof.
  intros Hu Hfault. unfold content_page, req_user, await_store. io.
  rewrite Hu. io. by rewrite Hfault.
Qed.

(** C7 fails on the content and playlist pages: with the record store down,
    both answer [200] with an empty page, where the dashboard, reading the
    same store, answers [500]. *)
Theorem page_routes_swallow_store_errors :
  (∀ q, store_fault Sample.env_store_down q
        = Some {| message := "connection refused" |})
  ∧ app Sample.env_store_down GET_content
      (Sample.request (Some "token-alice") ∅) Sample.world
    = (Returned (render "content" {[ "content" := VArr [] ]}), Sample.world)
  ∧ app Sample.env_store_down GET_playlist
      (Sample.playlist_request "token-alice" "7") Sample.world
    = (Returned
         (render "playlist" {[ "device" := VObj ∅; "content" := VArr [] ]}),
       Sample.world)
  ∧ (app Sample.env_store_down GET_dashboard
       (Sample.request (Some "token-alice") ∅) Sample.world).1
    = Returned (send 500 "Error fetching devices").
Proof.
  split; [done |]. split; [vm_compute; reflexivity |].
  split; vm_compute; reflexivity.
Qed.

(** Every other handler that calls the record store answers [500] when
    the call fails (the confirm, when its filter could be built at all). *)
Lemma store_failure_surfaces (env : Env) (r : Route) (req : Request)
    (w : World) (u : User) (e : ServiceError) :
  user req = Some u →
  (∀ q, store_fault env q = Some e) →
  is_Some (to_text (prop (body req) "device_id")) →
  r ∈ [GET_dashboard; POST_generate_code; POST_confirm_device; POST_content;
       GET_user_profile; PUT_user_profile; POST_playlist] →
  ∃ resp, (handler r env req w).1 = Returned resp ∧ status resp = 500%Z.
Proof.
  intros Hu Hfault [text Htext] Hr.
  repeat (apply elem_of_cons in Hr as [-> | Hr]);
    [.. | by apply elem_of_nil in Hr];
    cbn [handler];
    unfold dashboard_page, generate_code, confirm_device, create_content,
      get_profile, update_profile, create_playlist, try_catch, req_user,
      await_store, console_error, console_log;
    io; rewrite ?Hu; io; rewrite ?Htext, Hfault; cbn; eauto.
Qed.

(** ** Updating a profile *)

Lemma sent_profile_patch (u : User) (req : Request) :
  sent (profile_patch u req) = profile_patch u req.
Proof.
  apply map_eq. intros k. unfold sent. rewrite lookup_omap.
  unfold profile_patch. cbv zeta.
  destruct (decide (k = "full_name")) as [-> | ?].
  - rewrite lookup_insert_eq. cbn. by rewrite js_or_defined.
  - rewrite lookup_insert_ne by done.
    destruct (decide (k = "avatar_url")) as [-> | ?].
    + rewrite lookup_singleton_eq. cbn. by rewrite js_or_defined.
    + by rewrite lookup_singleton_ne.
Qed.

Lemma update_profile_ok (env : Env) (req : Request) (w : World) (u : User) :
  user req = Some u →
  store_fault env (Update "users" (profile_patch u req) "id" (VStr (id u)))
    = None →
  update_profile env req w
  = (Returned
       (json 200
          (first (VObj <$> ((profile_patch u req ∪.) <$>
             select_rows "id" (VStr (id u)) (rows (store w) "users"))))),
     {| store :=
          set_rows (store w) "users"
            (update_row (profile_patch u req) "id" (VStr (id u))
               <$> rows (store w) "users");
        console :=
          console w ++
          match updateUser env (profile_patch u req) with
          | Some _ => ["Auth update error:"]
          | None => []
          end |}).
Proof.
  intros Hu Hfault.
  unfold update_profile, req_user, await_store, console_error, console_log.
  io. rewrite Hu. io. rewrite Hfault. cbn.
  rewrite sent_profile_patch.
  destruct (updateUser env (profile_patch u req)); cbn; [done |].
  by rewrite app_nil_r.
Qed.

(** The one failure that is swallowed: the auth metadata update after the
    users row is written. *)
Lemma update_profile_swallows_auth_error (env : Env) (req : Request)
    (w : World) (u : User) (e : ServiceError) :
  user req = Some u →
  store_fault env (Update "users" (profile_patch u req) "id" (VStr (id u)))
    = None →
  updateUser env (profile_patch u req) = Some e →
  (∃ resp, (update_profile env req w).1 = Returned resp ∧ status resp = 200%Z)
  ∧ console (update_profile env req w).2 = console w ++ ["Auth update error:"].
Proof.
  intros Hu Hfault Hauth. rewrite (update_profile_ok _ _ _ u) by done. cbn.
  rewrite Hauth. eauto.
Qed.

Lemma profile_patch_full_name (u : User) (req : Request) :
  body req !! "full_name" = None →
  profile_patch u req !! "full_name"
  = Some (opt_prop (user_metadata u) "full_name" ||' VStr "").
Proof.
  intros Hbody. unfold profile_patch, prop. cbv zeta. rewrite Hbody.
  by rewrite lookup_insert_eq.
Qed.

(** C8, as the code has it: when an authenticated profile update supplies
    [avatar_url] and no [full_name] and the store accepts it, the
    [full_name] written to the caller's users row is the [full_name] of the
    caller's auth metadata ([req.user.user_metadata.full_name]) when that is
    truthy and [''] otherwise; the row's previous [full_name] plays no part,
    and survives exactly when it agrees with that value.  Columns other than
    [full_name] and [avatar_url] keep their value. *)
Theorem profile_avatar_only (env : Env) (req : Request) (w : World)
    (t : string) (u : User) (i : nat) (row : object) :
  cookies req !! "auth-token" = Some t →
  t ≠ "" →
  user_error (getUser env t) = None →
  user_data (getUser env t) = Some u →
  body req !! "full_name" = None →
  is_Some (body req !! "avatar_url") →
  store_fault env (Update "users" (profile_patch u req) "id" (VStr (id u)))
    = None →
  rows (store w) "users" !! i = Some row →
  eq_filter "id" (VStr (id u)) row = true →
  ∃ row',
    rows (store (app env PUT_user_profile req w).2) "users" !! i = Some row'
    ∧ row' !! "full_name"
      = Some (opt_prop (user_metadata u) "full_name" ||' VStr "")
    ∧ (row' !! "full_name" = row !! "full_name"
       ↔ row !! "full_name"
         = Some (opt_prop (user_metadata u) "full_name" ||' VStr ""))
    ∧ (∀ k, k ≠ "full_name" → k ≠ "avatar_url" → row' !! k = row !! k).
Proof.
  intros Hc Ht He Hu Hname Havatar Hfault Hrow Hmatch.
  exists (profile_patch u req ∪ row).
  assert ((profile_patch u req ∪ row) !! "full_name"
          = Some (opt_prop (user_metadata u) "full_name" ||' VStr ""))
    as Hwritten.
  { apply lookup_union_Some_l. by apply profile_patch_full_name. }
  split; [| split; [done | split]].
  - unfold app; cbn [session_protected handler].
    rewrite (requireAuth_allowed _ _ _ _ t u) by done.
    rewrite (update_profile_ok _ _ _ u) by done.
    change (profile_patch u (with_user req u)) with (profile_patch u req).
    cbn [snd store]. rewrite rows_set_rows, decide_True by done.
    rewrite list_lookup_fmap, Hrow. cbn. unfold update_row.
    by rewrite Hmatch, sent_profile_patch.
  - rewrite Hwritten. split; intros H; by rewrite H.
  - intros k Hk1 Hk2. rewrite lookup_union_r; [done |].
    unfold profile_patch. cbv zeta.
    by rewrite lookup_insert_ne, lookup_singleton_ne.
Qed.

Lemma profile_avatar_only_witness :
  ∃ row',
    rows (store (app Sample.env PUT_user_profile
                   (Sample.request (Some "token-alice")
                      {[ "avatar_url" := VStr "b.png" ]})
                   Sample.world).2) "users" !! 0 = Some row'
    ∧ row' !! "full_name" = Some (VStr "Alice A").
Proof.
  destruct (profile_avatar_only Sample.env
              (Sample.request (Some "token-alice")
                 {[ "avatar_url" := VStr "b.png" ]})
              Sample.world "token-alice" Sample.alice 0
              Sample.alices_user_row)
    as (row' & Hrow' & Hname & _);
    [reflexivity | discriminate | reflexivity | reflexivity | reflexivity
    | by eexists | reflexivity | reflexivity | reflexivity |].
  exists row'. split; [exact Hrow' | exact Hname].
Defined.

(** C8 as stated fails.  Alice renames herself to "Alice B"; the users row
    is written and the auth metadata update fails and is swallowed, so her
    auth metadata still says "Alice A".  Her next update supplies only
    [avatar_url]: the users row, which held "Alice B" before it, holds
    "Alice A" after it. *)
Lemma profile_avatar_only_loses_name :
  let rename :=
    Sample.call Sample.env PUT_user_profile
      (Sample.request (Some "token-alice") {[ "full_name" := VStr "Alice B" ]}) in
  let avatar_only :=
    Sample.request (Some "token-alice") {[ "avatar_url" := VStr "b.png" ]} in
  let before := step Sample.world rename in
  let after := (app Sample.env PUT_user_profile avatar_only before).2 in
  body avatar_only !! "full_name" = None
  ∧ body avatar_only !! "avatar_url" = Some (VStr "b.png")
  ∧ (λ r, prop r "full_name") <$> rows (store before) "users"
    = [VStr "Alice B"]
  ∧ (λ r, prop r "full_name") <$> rows (store after) "users"
    = [VStr "Alice A"]
  ∧ (app Sample.env PUT_user_profile avatar_only before).1
    = Returned
        (json 200
           (VObj {[ "id" := VStr "alice"; "full_name" := VStr "Alice A";
                    "avatar_url" := VStr "b.png" ]})).
Proof.
  cbv zeta. split; [reflexivity |]. split; [reflexivity |].
  split; [vm_compute; reflexivity |]. split; vm_compute; reflexivity.
Qed.

(** * The server as a whole *)

(** ** How a program moves the store *)

Section Moves.
Context {X : Type} (R : relation X) `{!PreOrder R} (f : Store → X).

Lemma moves_ret {A : Type} (a : A) : moves R f (mret a).
Proof. intros w. done. Qed.

Lemma moves_throw {A : Type} (e : string) : moves R f (throw e : IO A).
Proof. intros w. done. Qed.

Lemma moves_bind {A B : Type} (m : IO A) (k : A → IO B) :
  moves R f m → (∀ a, moves R f (k a)) → moves R f (m ≫= k).
Proof.
  intros Hm Hk w. unfold mbind, IO_bind.
  specialize (Hm w). destruct (m w) as [[a | e] w1]; cbn in *; [| done].
  by etrans; [| apply Hk].
Qed.

Lemma moves_try_catch {A : Type} (m : IO A) (h : string → IO A) :
  moves R f m → (∀ e, moves R f (h e)) → moves R f (try_catch m h).
Proof.
  intros Hm Hh w. unfold try_catch.
  specialize (Hm w). destruct (m w) as [[a | e] w1]; cbn in *; [done |].
  by etrans; [| apply Hh].
Qed.

Lemma moves_console_log (label : string) : moves R f (console_log label).
Proof. intros w. done. Qed.

Lemma moves_at0 (v : value) : moves R f (at0 v).
Proof. intros w. by destruct v as [| | | | [] | |]. Qed.

Lemma moves_req_user (req : Request) : moves R f (req_user req).
Proof. intros w. unfold req_user. by destruct (user req). Qed.

(** A call moves the store as its query does, or not at all when the store
    fails it. *)
Lemma moves_await_store (env : Env) (q : query) :
  (∀ st, R (f st) (f (run_query st q).2)) → moves R f (await_store env q).
Proof.
  intros Hq w. unfold await_store.
  destruct (chain_builds q); [| done].
  destruct (store_fault env q); [done |].
  specialize (Hq (store w)). by destruct (run_query (store w) q).
Qed.

Lemma moves_requireAuth (env : Env) (req : Request)
    (next : Request → IO Response) :
  (∀ req', moves R f (next req')) → moves R f (requireAuth env req next).
Proof.
  intros Hnext w. unfold requireAuth. repeat case_match; try done. apply Hnext.
Qed.

(** A select never moves the store. *)
Lemma select_stays (st : Store) (t col : string) (v : value) (single : bool) :
  (run_query st (Select t col v single)).2 = st.
Proof.
  cbn. destruct single; [| done].
  by destruct (select_rows col v (rows st t)) as [| ? []].
Qed.

Lemma moves_select (env : Env) (t col : string) (v : value) (single : bool) :
  moves R f (await_store env (Select t col v single)).
Proof. apply moves_await_store. intros st. by rewrite select_stays. Qed.

End Moves.

(** Takes a handler apart along its binds; [side] settles what is asked of
    the queries it sends. *)
Ltac moving side :=
  repeat first
    [ (apply moves_bind; try apply _); [| intros ?]
    | (apply moves_try_catch; try apply _); [| intros ?]
    | by (apply moves_select; try apply _)
    | by (apply moves_ret; try apply _)
    | by (apply moves_throw; try apply _)
    | by (apply moves_console_log; try apply _)
    | by (apply moves_at0; try apply _)
    | by (apply moves_req_user; try apply _)
    | (apply moves_await_store; try apply _); intros ?; side
    | match goal with
      | |- moves _ _ (match ?x with _ => _ end) => destruct x
      end ].

Ltac unfold_handlers :=
  unfold root_page, login_page, signup_page, dashboard_page, content_page,
    playlist_page, profile_page, test_supabase_page, signup, login,
    generate_code, confirm_device, confirm_query, create_content, get_profile,
    update_profile, create_playlist, console_error;
  cbv zeta.

(** ** Routes that only read *)

Lemma reading_handler_keeps_store (env : Env) (r : Route) (req : Request) :
  r ∉ [POST_generate_code; POST_confirm_device; POST_content;
       PUT_user_profile; POST_playlist] →
  moves eq (λ st, st) (handler r env req).
Proof.
  intros Hr.
  destruct r; cbn [handler]; try (exfalso; apply Hr; set_solver);
    unfold_handlers; moving fail.
Qed.

(** X1: Eleven of the sixteen routes never write: after any request to a page
    route, to sign-up, to login or to the profile read, authenticated or
    not, served or failed, the record store is what it was. *)
Theorem reading_routes_keep_store (env : Env) (r : Route) (req : Request)
    (w : World) :
  r ∈ [GET_root; GET_login; GET_signup; GET_dashboard; GET_content;
       GET_playlist; GET_profile; GET_test_supabase; POST_signup; POST_login;
       GET_user_profile] →
  store (app env r req w).2 = store w.
Proof.
  intros Hr. symmetry. revert w. change (moves eq (λ st, st) (app env r req)).
  assert (r ∉ [POST_generate_code; POST_confirm_device; POST_content;
               PUT_user_profile; POST_playlist]) as Hread.
  { intros Hw. repeat (apply elem_of_cons in Hr as [-> | Hr]);
      [.. | by apply elem_of_nil in Hr];
      repeat (apply elem_of_cons in Hw as [Hw | Hw]; [discriminate |]);
      by apply elem_of_nil in Hw. }
  unfold app. destruct (session_protected r).
  - apply moves_requireAuth; [apply _ |]. intros req'.
    by apply reading_handler_keeps_store.
  - by apply reading_handler_keeps_store.
Qed.

Lemma reading_routes_keep_store_witness :
  store (app Sample.env GET_dashboard (Library.as_alice ∅) Library.world).2
  = store Library.world.
Proof.
  apply (reading_routes_keep_store Sample.env GET_dashboard
           (Library.as_alice ∅) Library.world).
  set_solver.
Defined.

(** ** What every request does to the tables *)

(** Whatever a query of a sendable shape does to the store, every handler,
    behind the guard or not, does no more. *)
Lemma app_moves {X : Type} (R : relation X) `{!PreOrder R} (f : Store → X) :
  (∀ st q, sendable q → R (f st) (f (run_query st q).2)) →
  ∀ env r req, moves R f (app env r req).
Proof.
  intros Hq env r req.
  assert (∀ req', moves R f (handler r env req')) as Hhandler.
  { intros req'. destruct r; cbn [handler]; unfold_handlers;
      moving ltac:(apply Hq; cbn; first [done | set_solver | by auto]). }
  unfold app. destruct (session_protected r); [| done].
  by apply moves_requireAuth.
Qed.

Lemma run_moves {X : Type} (R : relation X) `{!PreOrder R} (f : Store → X) :
  (∀ st q, sendable q → R (f st) (f (run_query st q).2)) →
  ∀ cs w, R (f (store w)) (f (store (run w cs))).
Proof.
  intros Hq cs. induction cs as [| c cs IH]; intros w; [done |].
  cbn [run foldl]. fold (run (step w c) cs).
  etrans; [| apply IH].
  apply (app_moves R f Hq (call_env c) (call_route c) (call_request c) w).
Qed.

Lemma run_query_length (st : Store) (q : query) (t : string) :
  (length (rows st t) ≤ length (rows (run_query st q).2 t))%nat.
Proof.
  destruct q as [t' col v single | t' payload | t' patch col v].
  - by rewrite select_stays.
  - cbn. unfold rows at 2; cbn. rewrite lookup_insert.
    destruct (decide (t' = t)) as [-> |]; [| done].
    cbn. rewrite length_app. lia.
  - cbn. rewrite rows_set_rows.
    destruct (decide (t' = t)) as [-> |]; [| done].
    by rewrite length_fmap.
Qed.

(** X2: No request deletes a row: over any sequence of requests, no table of
    the store ever gets shorter. *)
Theorem rows_never_deleted (w : World) (cs : list Call) (t : string) :
  (length (rows (store w) t) ≤ length (rows (store (run w cs)) t))%nat.
Proof.
  apply (run_moves le (λ st, length (rows st t))).
  intros st q _. apply run_query_length.
Qed.

Lemma run_query_prefix (st : Store) (q : query) (t : string) :
  sendable q → t ≠ "devices" → t ≠ "users" →
  rows st t `prefix_of` rows (run_query st q).2 t.
Proof.
  intros Hq Hd Hu.
  destruct q as [t' col v single | t' payload | t' patch col v].
  - by rewrite select_stays.
  - cbn. unfold rows at 2; cbn. rewrite lookup_insert.
    destruct (decide (t' = t)) as [-> |]; [| done].
    cbn. by apply prefix_app_r.
  - cbn. rewrite rows_set_rows, decide_False; [done |].
    destruct Hq as [(-> & _) | (-> & _)]; congruence.
Qed.

(** X3: Content and playlist entries are written once: in every table other
    than [devices] and [users], a row that is in the store stays in its
    place and as it is over any sequence of requests; such a table changes
    only by rows appended after it. *)
Theorem rows_written_once (w : World) (cs : list Call) (t : string)
    (i : nat) (row : object) :
  t ≠ "devices" → t ≠ "users" →
  rows (store w) t !! i = Some row →
  rows (store (run w cs)) t !! i = Some row
  ∧ rows (store w) t `prefix_of` rows (store (run w cs)) t.
Proof.
  intros Hd Hu Hrow.
  assert (rows (store w) t `prefix_of` rows (store (run w cs)) t) as Hpre.
  { apply (run_moves prefix (λ st, rows st t)).
    intros st q Hq. by apply run_query_prefix. }
  split; [| done]. by apply (prefix_lookup_Some _ _ _ _ Hrow).
Qed.

Lemma rows_written_once_witness :
  rows (store (run Library.world Sample.later_calls)) "content" !! 1
  = Some Library.bobs_clip.
Proof.
  apply (rows_written_once Library.world Sample.later_calls "content" 1
           Library.bobs_clip);
    [discriminate | discriminate | reflexivity].
Defined.

Lemma run_query_users (st : Store) (q : query) :
  sendable q →
  length (rows (run_query st q).2 "users") = length (rows st "users").
Proof.
  intros Hq.
  destruct q as [t' col v single | t' payload | t' patch col v].
  - by rewrite select_stays.
  - cbn. unfold rows at 1; cbn. rewrite lookup_insert_ne; [done |].
    intros ->. cbn in Hq.
    repeat (apply elem_of_cons in Hq as [Hq | Hq]; [discriminate |]).
    by apply elem_of_nil in Hq.
  - cbn. rewrite rows_set_rows.
    destruct (decide (t' = "users")) as [-> |]; [| done].
    by rewrite length_fmap.
Qed.

(** X4: No route creates a users row: over any sequence of requests the [users]
    table keeps the number of rows it had, sign-ups included. *)
Theorem users_rows_counted (w : World) (cs : list Call) :
  length (rows (store (run w cs)) "users") = length (rows (store w) "users").
Proof.
  symmetry.
  apply (run_moves eq (λ st, length (rows st "users"))).
  intros st q Hq. symmetry. by apply run_query_users.
Qed.

(** ** What every request is answered with *)

Ltac run_handler :=
  unfold_handlers;
  unfold req_user, await_store, console_log, try_catch, run_query;
  io.

Ltac answered :=
  eexists; split; [reflexivity |];
  split; [cbn; unfold sent_statuses; set_solver | reflexivity].

Lemma handler_answers (env : Env) (r : Route) (req : Request) (w : World) :
  r ≠ POST_login →
  (session_protected r = true → is_Some (user req)) →
  (r = POST_confirm_device →
   is_Some (to_text (prop (body req) "device_id"))) →
  ∃ resp, (handler r env req w).1 = Returned resp
          ∧ status resp ∈ sent_statuses
          ∧ set_cookies resp = [].
Proof.
  intros Hlogin Huser Hconfirm.
  destruct (param_text req "deviceId") as [device Hdevice].
  destruct r; try done; cbn [handler];
    try (destruct (Huser eq_refl) as [u Hu]); clear Huser;
    try (destruct (Hconfirm eq_refl) as [operand Hoperand]); clear Hconfirm;
    run_handler; rewrite ?Hu, ?Hdevice, ?Hoperand; io;
    repeat (case_match; io); simplify_eq; answered.
Qed.

(** X5: Every request is answered by its handler, with two exceptions.
    Whatever the cookies, the body, the store and the hosted services do, a
    route sends a response, the status it sets is one of 200, 201, 302, 400
    and 500, and it sets no cookie unless it is the login.  The exceptions
    are a login that the auth service answers with neither an error nor a
    session, where the handler throws on reading the access token, and a
    confirm whose [device_id] has no text, where building the filter
    throws; neither is in a [try] and neither sends anything. *)
Theorem every_request_answered (env : Env) (r : Route) (req : Request)
    (w : World) :
  let answer := signInWithPassword env (prop (body req) "email")
                  (prop (body req) "password") in
  (r = POST_login → signin_error answer = None → is_Some (session answer)) →
  (r = POST_confirm_device →
   is_Some (to_text (prop (body req) "device_id"))) →
  ∃ resp, (app env r req w).1 = Returned resp
          ∧ status resp ∈ [200; 201; 302; 400; 500]%Z
          ∧ (r ≠ POST_login → set_cookies resp = []).
Proof.
  intros answer Hsession Hconfirm. change [200; 201; 302; 400; 500]%Z
    with sent_statuses.
  destruct (decide (r = POST_login)) as [-> | Hr].
  - unfold app; cbn [session_protected handler]. unfold login.
    fold answer. destruct (signin_error answer) as [e |].
    + eexists. split; [reflexivity |]. split; [| done].
      cbn. unfold sent_statuses. set_solver.
    + destruct (Hsession eq_refl eq_refl) as [s ->].
      eexists. split; [reflexivity |]. split; [| done].
      cbn. unfold sent_statuses. set_solver.
  - assert (∀ req', body req' = body req →
              (session_protected r = true → is_Some (user req')) →
              ∃ resp, (handler r env req' w).1 = Returned resp
                      ∧ status resp ∈ sent_statuses
                      ∧ (r ≠ POST_login → set_cookies resp = [])) as Hh.
    { intros req' Hbody Hu.
      destruct (handler_answers env r req' w Hr Hu) as (resp & ? & ? & ?);
        [by rewrite Hbody | by exists resp]. }
    unfold app. destruct (session_protected r) eqn:Hp.
    + unfold requireAuth.
      repeat case_match;
        try (apply Hh; [done | intros _; by eexists]);
        (eexists; split; [reflexivity |]; split; [| done];
         cbn; unfold sent_statuses; set_solver).
    + apply Hh; [done | discriminate].
Qed.

Lemma every_request_answered_witness :
  ∃ resp,
    (app Sample.env POST_confirm_device
       (Sample.request None {[ "device_id" := VNum "1e+21" ]})
       Library.world).1
    = Returned resp
    ∧ status resp ∈ [200; 201; 302; 400; 500]%Z.
Proof.
  destruct (every_request_answered Sample.env POST_confirm_device
              (Sample.request None {[ "device_id" := VNum "1e+21" ]})
              Library.world)
    as (resp & Hresp & Hstatus & _); [discriminate | by eexists |].
  exists resp. split; [exact Hresp | exact Hstatus].
Defined.

(** The exceptions are real: such a login throws, and so does such a
    confirm, whatever the store holds. *)
Lemma login_without_session_throws (env : Env) (req : Request) (w : World) :
  signInWithPassword env (prop (body req) "email") (prop (body req) "password")
  = {| session := None; signin_error := None |} →
  ∃ e, app env POST_login req w = (Threw e, w).
Proof.
  intros Hanswer. unfold app; cbn [session_protected handler]. unfold login.
  rewrite Hanswer. cbn. by eexists.
Qed.

Lemma confirm_without_text_throws (env : Env) (req : Request) (w : World)
    (o : object) :
  body req !! "device_id" = Some (VObj o) →
  is_Some (o !! "toString") →
  ∃ e, app env POST_confirm_device req w = (Threw e, w).
Proof.
  intros Hbody [x Hx]. unfold app; cbn [session_protected handler].
  rewrite confirm_device_throws; [by eexists |].
  unfold prop. rewrite Hbody. cbn. by rewrite Hx.
Qed.

(** ** Behind the guard *)

Lemma app_signed_in (env : Env) (r : Route) (req : Request) (u : User)
    (w : World) :
  signed_in env req u → session_protected r = true →
  app env r req w = handler r env (with_user req u) w.
Proof.
  intros (token & Hc & Ht & He & Hu) Hr. unfold app. rewrite Hr.
  by apply requireAuth_allowed with (t := token).
Qed.

Lemma alice_signed_in (b : object) :
  signed_in Sample.env (Library.as_alice b) Sample.alice.
Proof. exists "token-alice". by repeat split. Defined.

Lemma eq_filter_column (col s : string) (row : object) :
  eq_filter col (VStr s) row = true ↔ column_is col s row.
Proof.
  unfold eq_filter, column_is. cbn. split.
  - destruct (row !! col) as [c |]; [| done].
    destruct c; try done; intros ?%bool_decide_eq_true; eexists; done.
  - intros (c & -> & Hnull & Hundef & Htext).
    destruct c; try done; by apply bool_decide_eq_true.
Qed.

Lemma elem_of_select_rows (col s : string) (l : list object) (row : object) :
  row ∈ select_rows col (VStr s) l ↔ row ∈ l ∧ column_is col s row.
Proof.
  unfold select_rows. rewrite list_elem_of_filter, eq_filter_column. tauto.
Qed.

(** ** The dashboard *)

(** X6: The dashboard of a signed-in caller shows the devices whose [owner_id]
    is the caller's id, all of them and no other, in the order of the
    table; when the store fails, the caller gets [500] with the fixed text
    [Error fetching devices], not the store's message. *)
Theorem dashboard_shows_own_devices (env : Env) (req : Request) (u : User)
    (w : World) :
  signed_in env req u →
  match store_fault env (Select "devices" "owner_id" (VStr (id u)) false) with
  | Some e =>
      (app env GET_dashboard req w).1
      = Returned (send 500 "Error fetching devices")
  | None =>
      ∃ shown,
        (app env GET_dashboard req w).1
        = Returned
            (render "dashboard"
               {[ "user" := user_value u;
                  "devices" := VArr (VObj <$> shown);
                  "supabaseUrl" := VStr (SUPABASE_URL (process_env env));
                  "supabaseAnonKey" :=
                    VStr (SUPABASE_ANON_KEY (process_env env)) ]})
        ∧ shown `sublist_of` rows (store w) "devices"
        ∧ ∀ d, d ∈ shown
               ↔ d ∈ rows (store w) "devices" ∧ column_is "owner_id" (id u) d
  end.
Proof.
  intros Hin. rewrite (app_signed_in _ _ _ u) by done. cbn [handler].
  run_handler.
  destruct (store_fault env (Select "devices" "owner_id" (VStr (id u)) false));
    [done |].
  io. eexists. split; [reflexivity |]. split.
  - apply sublist_filter.
  - intros d. apply elem_of_select_rows.
Qed.

Lemma dashboard_shows_own_devices_witness :
  ∃ shown,
    (app Sample.env GET_dashboard (Library.as_alice ∅) Library.world).1
    = Returned
        (render "dashboard"
           {[ "user" := user_value Sample.alice;
              "devices" := VArr (VObj <$> shown);
              "supabaseUrl" := VStr "https://project.supabase.co";
              "supabaseAnonKey" := VStr "anon-key" ]})
    ∧ ∀ d, d ∈ shown → column_is "owner_id" "alice" d.
Proof.
  destruct (dashboard_shows_own_devices Sample.env (Library.as_alice ∅)
              Sample.alice Library.world (alice_signed_in ∅))
    as (shown & Hresp & _ & Hshown).
  exists shown. split; [exact Hresp |].
  intros d Hd. by apply Hshown.
Defined.

(** ** Content on the pages *)

(** X7: The content list of the content page and of the playlist page holds
    only content rows whose [owner_id] is the caller's id, whatever the
    store does and whatever device the playlist page is asked for; when the
    store answers the content query it is all of them, in table order. *)
Theorem pages_show_own_content (env : Env) (req : Request) (u : User)
    (w : World) :
  signed_in env req u →
  ∃ shown device,
    (app env GET_content req w).1
    = Returned (render "content" {[ "content" := VArr (VObj <$> shown) ]})
    ∧ (app env GET_playlist req w).1
      = Returned
          (render "playlist"
             {[ "device" := device; "content" := VArr (VObj <$> shown) ]})
    ∧ (∀ c, c ∈ shown →
            c ∈ rows (store w) "content" ∧ column_is "owner_id" (id u) c)
    ∧ (store_fault env (Select "content" "owner_id" (VStr (id u)) false) = None →
       shown = select_rows "owner_id" (VStr (id u)) (rows (store w) "content")).
Proof.
  intros Hin. rewrite !(app_signed_in _ _ _ u) by done. cbn [handler].
  destruct (param_text (with_user req u) "deviceId") as [text Htext].
  run_handler. rewrite Htext.
  destruct (store_fault env (Select "content" "owner_id" (VStr (id u)) false))
    as [e |].
  - exists [].
    destruct (store_fault env (Select "devices" "device_id" _ true)); io;
      [| destruct (select_rows _ _ _) as [| ? []]; io];
      eexists; (split; [reflexivity |]); (split; [reflexivity |]);
      (split; [by intros c ?%elem_of_nil | done]).
  - exists (select_rows "owner_id" (VStr (id u)) (rows (store w) "content")).
    destruct (store_fault env (Select "devices" "device_id" _ true)); io;
      [| destruct (select_rows "device_id" _ _) as [| ? []]; io];
      eexists; (split; [reflexivity |]); (split; [reflexivity |]);
      (split; [by intros c ?%elem_of_select_rows | done]).
Qed.

Lemma pages_show_own_content_witness :
  ∃ shown,
    (app Sample.env GET_content (Library.as_alice ∅) Library.world).1
    = Returned (render "content" {[ "content" := VArr (VObj <$> shown) ]})
    ∧ shown = [Library.alices_clip].
Proof.
  destruct (pages_show_own_content Sample.env (Library.as_alice ∅)
              Sample.alice Library.world (alice_signed_in ∅))
    as (shown & device & Hresp & _ & _ & Hall).
  exists shown. split; [exact Hresp |].
  etrans; [exact (Hall eq_refl) |]. vm_compute. reflexivity.
Defined.

(** ** Reading a profile *)

(** X8: The profile read answers [200] with the users row whose [id] is the
    caller's only when the store finds exactly one such row; with none or
    with several it answers [500] with the store's message about the row
    count, and [500] with the store's message when the store fails. *)
Theorem get_profile_single_row (env : Env) (req : Request) (u : User)
    (w : World) :
  signed_in env req u →
  (app env GET_user_profile req w).1
  = Returned
      match store_fault env (Select "users" "id" (VStr (id u)) true) with
      | Some e => json 500 (error_body e)
      | None =>
          match select_rows "id" (VStr (id u)) (rows (store w) "users") with
          | [row] => json 200 (VObj row)
          | _ => json 500 (error_body not_single)
          end
      end
  ∧ ((∃ resp, (app env GET_user_profile req w).1 = Returned resp
              ∧ status resp = 200%Z)
     ↔ store_fault env (Select "users" "id" (VStr (id u)) true) = None
       ∧ ∃ row, select_rows "id" (VStr (id u)) (rows (store w) "users") = [row]).
Proof.
  intros Hin. rewrite !(app_signed_in _ _ _ u) by done. cbn [handler].
  run_handler.
  destruct (store_fault env (Select "users" "id" (VStr (id u)) true)) as [e |];
    io.
  { split; [done |]. split.
    - by intros (resp & [= <-] & ?).
    - by intros [? _]. }
  destruct (select_rows "id" (VStr (id u)) (rows (store w) "users"))
    as [| row [| row' l]]; io; (split; [done |]); split;
    try (by intros (resp & [= <-] & ?));
    try (by intros [_ [? ?]]).
  - intros _. split; [done |]. by exists row.
  - intros _. by eexists.
Qed.

Lemma get_profile_single_row_witness :
  (app Sample.env GET_user_profile (Library.as_alice ∅) Library.world).1
  = Returned (json 200 (VObj Sample.alices_user_row))
  ∧ (app Sample.env GET_user_profile (Library.as_alice ∅)
       Sample.empty_world).1
    = Returned (json 500 (error_body not_single)).
Proof.
  split.
  - apply (get_profile_single_row Sample.env (Library.as_alice ∅)
             Sample.alice Library.world (alice_signed_in ∅)).
  - apply (get_profile_single_row Sample.env (Library.as_alice ∅)
             Sample.alice Sample.empty_world (alice_signed_in ∅)).
Defined.

(** ** Creating content and playlist entries *)






(** ** Writing a profile *)



(** ** Generate and confirm together *)

(** X12: The answer of a generate call tells what happened to the store: either
    it is [201] with a row and exactly that row was appended to the devices,
    or it is something else (the redirect of the guard, a [500]) and the
    store is untouched.  There is no answer of success without a stored
    device and no stored device without it. *)
Theorem generate_answer_tells_store (env : Env) (req : Request) (w : World) :
  (∃ row,
     (app env POST_generate_code req w).1 = Returned (json 201 (VObj row))
     ∧ rows (store (app env POST_generate_code req w).2) "devices"
       = rows (store w) "devices" ++ [row])
  ∨ ((∃ resp, (app env POST_generate_code req w).1 = Returned resp
              ∧ status resp ≠ 201%Z)
     ∧ store (app env POST_generate_code req w).2 = store w).
Proof.
  unfold app; cbn [session_protected handler]. unfold requireAuth.
  repeat case_match; try (right; split; [by eexists | done]).
  match goal with |- context [generate_code env (with_user req ?u')] =>
    destruct (store_fault env
                (Insert "devices" (generate_payload env u' (with_user req u'))))
      as [e |] eqn:Hfault;
    [ right; rewrite (generate_code_fault _ _ _ u' e) by done;
      split; [by eexists | done]
    | left; rewrite (generate_code_ok _ _ _ u') by done ]
  end.
  eexists. split; [reflexivity |].
  unfold rows at 1; cbn. by rewrite lookup_insert_eq.
Qed.

Lemma eq_filter_same (col s : string) (row : object) :
  row !! col = Some (VStr s) → eq_filter col (VStr s) row = true.
Proof. intros Hrow. unfold eq_filter. rewrite Hrow. by apply bool_decide_eq_true. Qed.

(** X13: Generate, then confirm with the [device_id] of the answer: the device
    just created is [active] in the store, still owned by the caller and
    otherwise as created, and the confirm is answered [200] with an [active]
    row of that [device_id].  The confirm needs no cookie. *)
Theorem generate_then_confirm (env env' : Env) (req req' : Request) (u : User)
    (w : World) :
  signed_in env req u →
  store_fault env (Insert "devices" (generate_payload env u req)) = None →
  let created := app env POST_generate_code req w in
  ∃ row device_id,
    created.1 = Returned (json 201 (VObj row))
    ∧ row !! "device_id" = Some (VStr device_id)
    ∧ row !! "owner_id" = Some (VStr (id u))
    ∧ row_status row = VStr "pending"
    ∧ (prop (body req') "device_id" = VStr device_id →
       store_fault env' (confirm_query req') = None →
       let confirmed := app env' POST_confirm_device req' created.2 in
       rows (store confirmed.2) "devices" !! length (rows (store w) "devices")
       = Some (confirm_patch ∪ row)
       ∧ ∃ row', confirmed.1 = Returned (json 200 (VObj row'))
                 ∧ row_status row' = VStr "active"
                 ∧ column_is "device_id" device_id row').
Proof.
  intros Hin Hfault created. subst created.
  rewrite !(app_signed_in _ _ _ u) by done. cbn [handler].
  assert (user (with_user req u) = Some u) as Hu by done.
  rewrite (generate_code_ok _ _ _ u Hu Hfault). cbn [fst snd].
  set (row := generate_payload env u (with_user req u)
              ∪ column_defaults "devices" (next_id (store w))).
  assert (row !! "device_id" = Some (VStr (pretty (next_id (store w)))))
    as Hid by (subst row; by rewrite lookup_union_r).
  exists row, (pretty (next_id (store w))).
  split; [done |]. split; [done |].
  split; [by apply lookup_union_Some_l |].
  split; [subst row; unfold row_status, prop; by rewrite lookup_union_r |].
  intros Hbody Hfault'.
  unfold app; cbn [session_protected handler].
  rewrite confirm_device_ok; [| rewrite Hbody; by eexists | done].
  cbn [fst snd store]. rewrite Hbody.
  assert (rows {| tables := <["devices" := rows (store w) "devices" ++ [row]]>
                              (tables (store w));
                  next_id := S (next_id (store w)) |} "devices"
          = rows (store w) "devices" ++ [row]) as ->.
  { unfold rows at 1; cbn. by rewrite lookup_insert_eq. }
  pose proof (eq_filter_same _ _ _ Hid) as Hmatch.
  assert (∀ r, column_is "device_id" (pretty (next_id (store w))) r →
               column_is "device_id" (pretty (next_id (store w)))
                 (confirm_patch ∪ r)) as Hkeeps.
  { intros r (c & Hc & ?). exists c. by rewrite lookup_union_r. }
  split.
  - rewrite rows_set_rows, decide_True by done.
    rewrite fmap_app, lookup_app_r by (by rewrite length_fmap).
    rewrite length_fmap, Nat.sub_diag. cbn. unfold update_row.
    by rewrite Hmatch.
  - assert (row ∈ select_rows "device_id" (VStr (pretty (next_id (store w))))
                    (rows (store w) "devices" ++ [row])) as Hrow.
    { apply list_elem_of_filter. split; [done |]. set_solver. }
    destruct (select_rows _ _ (rows (store w) "devices" ++ [row]))
      as [| r0 l] eqn:Hsel; [by apply elem_of_nil in Hrow |].
    exists (confirm_patch ∪ r0). split; [done |].
    split; [apply confirm_patch_status |].
    apply Hkeeps.
    assert (r0 ∈ select_rows "device_id" (VStr (pretty (next_id (store w))))
                   (rows (store w) "devices" ++ [row])) as Hr0
      by (rewrite Hsel; apply list_elem_of_here).
    by apply elem_of_select_rows in Hr0 as [_ ?].
Qed.

Lemma generate_then_confirm_witness :
  ∃ row,
    rows (store (app Sample.env POST_confirm_device
                   (Sample.request None {[ "device_id" := VStr "8" ]})
                   (app Sample.env POST_generate_code
                      (Library.as_alice {[ "device_name" := VStr "Kiosk" ]})
                      Library.world).2).2) "devices" !! 2
    = Some (confirm_patch ∪ row)
    ∧ row !! "owner_id" = Some (VStr "alice").
Proof.
  destruct (generate_then_confirm Sample.env Sample.env
              (Library.as_alice {[ "device_name" := VStr "Kiosk" ]})
              (Sample.request None {[ "device_id" := VStr "8" ]})
              Sample.alice Library.world (alice_signed_in _) eq_refl)
    as (row & device_id & Hcreated & Hid & Howner & _ & Hconfirm).
  exists row. split; [| exact Howner].
  assert (device_id = "8") as ->.
  { vm_compute in Hcreated. injection Hcreated as <-.
    vm_compute in Hid. by injection Hid. }
  by destruct (Hconfirm eq_refl eq_refl) as [Hstored _].
Defined.

(** ** Reading back what was written *)

Lemma insert_rows (st : Store) (t : string) (l : list object) (n : nat) :
  rows {| tables := <[t := l]> (tables st); next_id := n |} t = l.
Proof. unfold rows; cbn. by rewrite lookup_insert_eq. Qed.

(** X14: A device a caller generates is on that caller's dashboard: the
    dashboard served after a successful generate shows the devices it would
    have shown before, followed by the created row. *)
Theorem generated_device_on_dashboard (env env' : Env) (req req' : Request)
    (u : User) (w : World) :
  signed_in env req u →
  store_fault env (Insert "devices" (generate_payload env u req)) = None →
  signed_in env' req' u →
  store_fault env' (Select "devices" "owner_id" (VStr (id u)) false) = None →
  ∃ row,
    (app env POST_generate_code req w).1 = Returned (json 201 (VObj row))
    ∧ (app env' GET_dashboard req' (app env POST_generate_code req w).2).1
      = Returned
          (render "dashboard"
             {[ "user" := user_value u;
                "devices" :=
                  VArr (VObj <$> (select_rows "owner_id" (VStr (id u))
                                    (rows (store w) "devices") ++ [row]));
                "supabaseUrl" := VStr (SUPABASE_URL (process_env env'));
                "supabaseAnonKey" :=
                  VStr (SUPABASE_ANON_KEY (process_env env')) ]}).
Proof.
  intros Hin Hfault Hin' Hfault'.
  rewrite !(app_signed_in _ _ _ u) by done. cbn [handler].
  assert (user (with_user req u) = Some u) as Hu by done.
  rewrite (generate_code_ok _ _ _ u Hu Hfault). cbn [fst snd].
  eexists. split; [reflexivity |].
  run_handler. rewrite Hfault'. io. rewrite insert_rows.
  unfold select_rows. rewrite filter_app, filter_cons, decide_True; [done |].
  apply eq_filter_same. by apply lookup_union_Some_l.
Qed.

Lemma generated_device_on_dashboard_witness :
  ∃ row,
    (app Sample.env GET_dashboard (Library.as_alice ∅)
       (app Sample.env POST_generate_code
          (Library.as_alice {[ "device_name" := VStr "Kiosk" ]})
          Library.world).2).1
    = Returned
        (render "dashboard"
           {[ "user" := user_value Sample.alice;
              "devices" := VArr [VObj Library.alices_device; VObj row];
              "supabaseUrl" := VStr "https://project.supabase.co";
              "supabaseAnonKey" := VStr "anon-key" ]}).
Proof.
  destruct (generated_device_on_dashboard Sample.env Sample.env
              (Library.as_alice {[ "device_name" := VStr "Kiosk" ]})
              (Library.as_alice ∅) Sample.alice Library.world
              (alice_signed_in _) eq_refl (alice_signed_in _) eq_refl)
    as (row & _ & Hshown).
  exists row. exact Hshown.
Defined.

(** X15: Content a caller creates is on that caller's content page, after what
    was there, and on the content page of no caller with another id. *)
Theorem created_content_on_page (env env' : Env) (req req' : Request)
    (u u' : User) (w : World) :
  signed_in env req u →
  store_fault env
    (Insert "content"
       {[ "owner_id" := VStr (id u);
          "file_url" := prop (body req) "file_url";
          "content_type" := prop (body req) "content_type" ]}) = None →
  signed_in env' req' u' →
  store_fault env' (Select "content" "owner_id" (VStr (id u')) false) = None →
  ∃ row,
    (app env POST_content req w).1 = Returned (json 201 (VObj row))
    ∧ (app env' GET_content req' (app env POST_content req w).2).1
      = Returned
          (render "content"
             {[ "content" :=
                  VArr (VObj <$>
                          (select_rows "owner_id" (VStr (id u'))
                             (rows (store w) "content")
                           ++ if decide (id u' = id u) then [row] else [])) ]}).
Proof.
  intros Hin Hfault Hin' Hfault'.
  rewrite (app_signed_in _ _ _ u), (app_signed_in _ _ _ u') by done.
  cbn [handler]. run_handler. rewrite Hfault. io. rewrite Hfault'. io.
  eexists. split; [reflexivity |]. rewrite insert_rows.
  unfold select_rows. rewrite filter_app, filter_cons.
  set (row := sent _ ∪ ∅).
  assert (row !! "owner_id" = Some (VStr (id u))) as Howner.
  { subst row. apply lookup_union_Some_l. unfold sent.
    by rewrite lookup_omap, lookup_insert_eq. }
  destruct (decide (id u' = id u)) as [Heq | Hne].
  - rewrite decide_True; [done |].
    apply eq_filter_same. by rewrite Heq.
  - rewrite decide_False; [done |].
    intros (c & Hc & _ & _ & Htext)%eq_filter_column.
    rewrite Howner in Hc. injection Hc as <-. cbn in Htext. congruence.
Qed.

Lemma created_content_on_page_witness :
  ∃ row,
    (app Sample.env GET_content (Library.as_alice ∅)
       (app Sample.env POST_content
          (Library.as_alice {[ "file_url" := VStr "https://cdn/c.mp4" ]})
          Library.world).2).1
    = Returned
        (render "content"
           {[ "content" := VArr [VObj Library.alices_clip; VObj row] ]}).
Proof.
  destruct (created_content_on_page Sample.env Sample.env
              (Library.as_alice {[ "file_url" := VStr "https://cdn/c.mp4" ]})
              (Library.as_alice ∅) Sample.alice Sample.alice Library.world
              (alice_signed_in _) eq_refl (alice_signed_in _) eq_refl)
    as (row & _ & Hshown).
  exists row. exact Hshown.
Defined.

Lemma sent_profile_patch_id (u : User) (req : Request) :
  sent (profile_patch u req) !! "id" = None.
Proof. by rewrite sent_profile_patch. Qed.

Lemma bob_signed_in (b : object) :
  signed_in Library.env_syncing (Library.as_bob b) Sample.bob.
Proof. exists "token-bob". by repeat split. Defined.

Lemma bob_renamed_signed_in (b : object) :
  signed_in Library.env_synced (Library.as_bob b) Library.bob_renamed.
Proof. exists "token-bob". by repeat split. Defined.

(** X16: What a profile update answers is what the profile read then
    reads: for a caller with one users row, the update answers [200] with
    that row under the patch, and the profile read served after it to the
    caller with that id, whatever the auth service then says of the caller's
    metadata, answers [200] with the same row. *)
Theorem profile_update_then_read (env env' : Env) (req req' : Request)
    (u u' : User) (w : World) (row : object) :
  signed_in env req u →
  store_fault env (Update "users" (profile_patch u req) "id" (VStr (id u)))
    = None →
  select_rows "id" (VStr (id u)) (rows (store w) "users") = [row] →
  signed_in env' req' u' →
  id u' = id u →
  store_fault env' (Select "users" "id" (VStr (id u')) true) = None →
  (app env PUT_user_profile req w).1
  = Returned
      {| status := 200; set_cookies := [];
         sent_body := Json (VObj (profile_patch u req ∪ row)) |}
  ∧ (app env' GET_user_profile req' (app env PUT_user_profile req w).2).1
    = Returned
        {| status := 200; set_cookies := [];
           sent_body := Json (VObj (profile_patch u req ∪ row)) |}.
Proof.
  intros Hin Hfault Hone Hin' Hid Hfault'.
  rewrite (app_signed_in _ _ _ u), (app_signed_in _ _ _ u') by done.
  cbn [handler].
  rewrite (update_profile_ok _ _ _ u) by done.
  change (profile_patch u (with_user req u)) with (profile_patch u req).
  cbn [fst snd]. rewrite Hone. split; [done |].
  run_handler. rewrite Hfault'. io. rewrite Hid.
  rewrite rows_set_rows, decide_True by done.
  rewrite select_rows_updated by apply sent_profile_patch_id.
  by rewrite Hone, sent_profile_patch.
Qed.

Lemma profile_update_then_read_witness :
  (app Library.env_synced GET_user_profile (Library.as_bob ∅)
     (app Library.env_syncing PUT_user_profile
        (Library.as_bob {[ "full_name" := VStr "Bob B" ]})
        Library.world).2).1
  = Returned
      (json 200
         (VObj {[ "id" := VStr "bob"; "full_name" := VStr "Bob B";
                  "avatar_url" := VStr "" ]})).
Proof.
  destruct (profile_update_then_read Library.env_syncing Library.env_synced
              (Library.as_bob {[ "full_name" := VStr "Bob B" ]})
              (Library.as_bob ∅) Sample.bob Library.bob_renamed Library.world
              Library.bobs_user_row (bob_signed_in _) eq_refl eq_refl
              (bob_renamed_signed_in _) eq_refl eq_refl)
    as [_ Hread].
  etrans; [exact Hread |]. vm_compute. reflexivity.
Defined.

(** What the fallback of the patch gives when the metadata it falls back
    to is the old one, or is what the first patch wrote. *)
Lemma js_or_fallback (a m m' : value) :
  truthy a = true ∨ m' = m ∨ m' = a ||' m ||' VStr "" →
  a ||' m' ||' VStr "" = a ||' m ||' VStr "".
Proof.
  unfold js_or. intros [Ha | [-> | ->]]; [by rewrite Ha | done |].
  destruct (truthy a) eqn:Ha; [by rewrite Ha |].
  destruct (truthy m) eqn:Hm; [by rewrite Hm |]. done.
Qed.

(** X17: Sending a profile update twice is sending it once.  The second
    update comes from the caller with the same id and the same body, and
    for each of the two fields either the body supplies it, or the caller's
    auth metadata still holds what it held (the metadata update failed), or
    it holds what the first update wrote (the metadata update succeeded);
    then the second update answers as the first did and leaves the store as
    the first left it. *)
Theorem profile_update_idempotent (env env' : Env) (req req' : Request)
    (u u' : User) (w : World) :
  signed_in env req u →
  signed_in env' req' u' →
  id u' = id u →
  body req' = body req →
  (∀ field, field ∈ ["full_name"; "avatar_url"] →
     truthy (prop (body req) field) = true
     ∨ opt_prop (user_metadata u') field = opt_prop (user_metadata u) field
     ∨ opt_prop (user_metadata u') field = prop (profile_patch u req) field) →
  store_fault env (Update "users" (profile_patch u req) "id" (VStr (id u)))
    = None →
  store_fault env' (Update "users" (profile_patch u' req') "id" (VStr (id u')))
    = None →
  let once := app env PUT_user_profile req w in
  let twice := app env' PUT_user_profile req' once.2 in
  twice.1 = once.1
  ∧ store twice.2 = store once.2
  ∧ ∃ answer, once.1 = Returned {| status := 200; set_cookies := [];
                                   sent_body := Json answer |}.
Proof.
  intros Hin Hin' Hid Hbody Hmeta Hfault Hfault' once twice.
  subst twice once.
  assert (profile_patch u' req' = profile_patch u req) as Hpatch.
  { assert (prop (body req) "full_name"
              ||' opt_prop (user_metadata u') "full_name" ||' VStr ""
            = prop (body req) "full_name"
              ||' opt_prop (user_metadata u) "full_name" ||' VStr "") as Hname.
    { apply js_or_fallback.
      assert ("full_name" ∈ ["full_name"; "avatar_url"]) as Hfield
        by set_solver.
      destruct (Hmeta _ Hfield) as [? | [? | Hnew]];
        [by left | by right; left |].
      right; right. rewrite Hnew. unfold profile_patch, prop. cbv zeta.
      by rewrite lookup_insert_eq. }
    assert (prop (body req) "avatar_url"
              ||' opt_prop (user_metadata u') "avatar_url" ||' VStr ""
            = prop (body req) "avatar_url"
              ||' opt_prop (user_metadata u) "avatar_url" ||' VStr "")
      as Havatar.
    { apply js_or_fallback.
      assert ("avatar_url" ∈ ["full_name"; "avatar_url"]) as Hfield
        by set_solver.
      destruct (Hmeta _ Hfield) as [? | [? | Hnew]];
        [by left | by right; left |].
      right; right. rewrite Hnew. unfold profile_patch, prop. cbv zeta.
      by rewrite lookup_insert_ne, lookup_singleton_eq. }
    unfold profile_patch. cbv zeta. by rewrite Hbody, Hname, Havatar. }
  rewrite (app_signed_in env _ req u), (app_signed_in env' _ req' u') by done.
  cbn [handler].
  rewrite (update_profile_ok env _ _ u) by done. cbn [fst snd].
  rewrite (update_profile_ok env' _ _ u') by done. cbn [fst snd store].
  change (profile_patch u (with_user req u)) with (profile_patch u req).
  change (profile_patch u' (with_user req' u')) with (profile_patch u' req').
  rewrite Hpatch, Hid.
  rewrite !rows_set_rows, !decide_True by done.
  split; [| split; [| by eexists]].
  - rewrite select_rows_updated by apply sent_profile_patch_id.
    rewrite sent_profile_patch, <- !list_fmap_compose.
    do 3 f_equal. apply list_fmap_ext. intros i r _. cbn.
    by rewrite patch_twice.
  - unfold set_rows; cbn. f_equal. rewrite insert_insert_eq. f_equal.
    rewrite <- list_fmap_compose. apply list_fmap_ext.
    intros i r _. cbn. apply update_row_twice, sent_profile_patch_id.
Qed.

Lemma profile_update_idempotent_witness :
  store (app Library.env_synced PUT_user_profile
           (Library.as_bob {[ "full_name" := VStr "Bob B" ]})
           (app Library.env_syncing PUT_user_profile
              (Library.as_bob {[ "full_name" := VStr "Bob B" ]})
              Library.world).2).2
  = store (app Library.env_syncing PUT_user_profile
             (Library.as_bob {[ "full_name" := VStr "Bob B" ]})
             Library.world).2.
Proof.
  apply (profile_update_idempotent Library.env_syncing Library.env_synced
           (Library.as_bob {[ "full_name" := VStr "Bob B" ]})
           (Library.as_bob {[ "full_name" := VStr "Bob B" ]})
           Sample.bob Library.bob_renamed Library.world
           (bob_signed_in _) (bob_renamed_signed_in _) eq_refl eq_refl);
    [| reflexivity | reflexivity].
  intros field Hfield.
  apply elem_of_cons in Hfield as [-> | Hfield]; [by left |].
  apply list_elem_of_singleton in Hfield as ->. right; right. reflexivity.
Defined.
